(** * price-project: the CSV price ledger of [prices.py]

    A shallow embedding of [src/regular/prices.py] and the properties its
    specification states about it.

    - Python [str] values are [string]s.  The model covers 7-bit ASCII text,
      the alphabet of ticker symbols: [str.strip] removes the ASCII
      white-space characters and [str.upper] maps [a-z] to [A-Z]; other
      characters have no case and are not white space.
    - A [dict] is a [gmap]; a [set] is a [gset]; a [list] is a [list].
    - A text file handled through the [csv] module is the list of records
      [csv.reader] yields on it (a blank line is the record [[]]);
      [csv.writer.writerow] adds one record at the end.  The text of a
      file is taken to be as [csv.writer] leaves it: every record ends
      with a line terminator, and reading gives back the fields written.
    - [print] calls, the clock and [main] are left out.
    - Python floats are IEEE binary64 values, [spec_float].
    - Exceptions are values of [exn]; code that can raise returns a
      [result]. *)

From Stdlib Require Import ZArith Ascii String List.
From Corelib Require Import SpecFloat.
From stdpp Require Import base decidable option list gmap strings fin_maps.

(** ** Python strings *)

Module PyStr.

(** [str.isspace] on one ASCII character: TAB, LF, VT, FF, CR, the four
    separators FS, GS, RS, US, and the space. *)
Definition is_space (c : ascii) : bool :=
  let n := N_of_ascii c in
  ((9 <=? n) && (n <=? 13) || (28 <=? n) && (n <=? 32))%N.

Definition upper_char (c : ascii) : ascii :=
  let n := N_of_ascii c in
  if ((97 <=? n) && (n <=? 122))%N then ascii_of_N (n - 32) else c.

(** [s.upper()] *)
Fixpoint upper (s : string) : string :=
  match s with
  | EmptyString => EmptyString
  | String c s' => String (upper_char c) (upper s')
  end.

(** [s.lstrip()] *)
Fixpoint lstrip (s : string) : string :=
  match s with
  | EmptyString => EmptyString
  | String c s' => if is_space c then lstrip s' else s
  end.

(** [s.rstrip()]: a character goes when it is white space and nothing
    but white space follows it. *)
Fixpoint rstrip (s : string) : string :=
  match s with
  | EmptyString => EmptyString
  | String c s' =>
      match rstrip s' with
      | EmptyString => if is_space c then EmptyString else String c EmptyString
      | r => String c r
      end
  end.

(** [s.strip()] *)
Definition strip (s : string) : string := rstrip (lstrip s).

(** Truth value of a string: [bool(s)]. *)
Definition truthy (s : string) : bool :=
  match s with EmptyString => false | _ => true end.

(** [sep.join(parts)] *)
Fixpoint join (sep : string) (parts : list string) : string :=
  match parts with
  | [] => ""
  | [p] => p
  | p :: rest => p +:+ sep +:+ join sep rest
  end.

End PyStr.

Import PyStr.

(** ** [normalize_symbols] *)

(** The guard of the loop body: [not s or not str(s).strip()]. *)
Definition is_blank (s : string) : bool :=
  negb (truthy s) || negb (truthy (strip s)).

(** [str(s).strip().upper()] *)
Definition canonical (s : string) : string := upper (strip s).

(** The [for] loop of [normalize_symbols], with its two accumulators
    [cleaned] and [seen]. *)
Fixpoint normalize_loop (symbols : list string)
    (cleaned : list string) (seen : gset string) : list string :=
  match symbols with
  | [] => cleaned
  | s :: rest =>
      if is_blank s then normalize_loop rest cleaned seen
      else
        let sym := canonical s in
        if decide (sym ∈ seen) then normalize_loop rest cleaned seen
        else normalize_loop rest (cleaned ++ [sym]) ({[sym]} ∪ seen)
  end.

Definition normalize_symbols (symbols : list string) : list string :=
  normalize_loop symbols [] ∅.

(** What the specification says [normalize_symbols] computes: drop the
    blank entries, put every other entry in canonical form, and keep of
    each canonical symbol its first occurrence only. *)
Fixpoint keep_first (l : list string) : list string :=
  match l with
  | [] => []
  | x :: l' => x :: filter (λ y, y ≠ x) (keep_first l')
  end.

Definition normalize_spec (symbols : list string) : list string :=
  keep_first (canonical <$> filter (λ s, is_blank s = false) symbols).


(** ** JSON values and exceptions *)

(** JSON values as [r.json()] returns them: [None], [bool], [int],
    [float], [str], [list] and [dict].  A [dict] is kept as the list of
    its members in document order; a repeated key is bound to its last
    value. *)
#[warnings="-register-all"]
Inductive json :=
  | JNull
  | JBool (b : bool)
  | JInt (z : Z)
  | JFloat (f : spec_float)
  | JStr (s : string)
  | JList (l : list json)
  | JDict (d : list (string * json)).

(** The five messages [get_prices] raises a [RuntimeError] with. *)
Inductive message :=
  | KeyNotFound
      (* "CMC_API_KEY not found. Please set it via .env or environment variables." *)
  | SymbolListEmpty
      (* "Symbol list is empty. Please configure at least one symbol." *)
  | FailedToCall
      (* "Failed to call CoinMarketCap API (network/timeout): {e}" *)
  | HttpStatus (status_code : Z) (text : string)
      (* "HTTP {r.status_code}: {r.text}" *)
  | ApiError (error_code error_message : json).
      (* "API error {error_code}: {error_message}" *)

Inductive exn :=
  | RuntimeError (m : message)
  | AttributeError
  | TypeError
  | ValueError
  | OverflowError
  | JSONDecodeError
  | FileNotFoundError.

Inductive result (A : Type) :=
  | Ok (a : A)
  | Raise (e : exn).
Arguments Ok {A} a.
Arguments Raise {A} e.

#[global] Instance result_ret : MRet result := λ A a, Ok a.
#[global] Instance result_bind : MBind result := λ A B f m,
  match m with Ok a => f a | Raise e => Raise e end.

(** ** Files *)

Abbreviation record := (list string).

Inductive open_mode := ModeR | ModeW | ModeA.

(** The file system, and the [open] calls made so far. *)
Record world := World {
  files : gmap string (list record);
  opened : list (string * open_mode)
}.

(** Code with file effects: a state and exception monad over [world]. *)
Definition io (A : Type) : Type := world → result (A * world).

#[global] Instance io_ret : MRet io := λ A a w, Ok (a, w).
#[global] Instance io_bind : MBind io := λ A B f m w,
  match m w with Ok (a, w') => f a w' | Raise e => Raise e end.

(** [os.path.exists(path)] *)
Definition path_exists (path : string) : io bool := λ w,
  Ok (bool_decide (is_Some (files w !! path)), w).

(** [open(path, mode, newline="", encoding="utf-8")]: ["w"] truncates or
    creates, ["a"] creates when absent, ["r"] needs the file. *)
Definition open_file (path : string) (mode : open_mode) : io unit := λ w,
  let w' fs := World fs (opened w ++ [(path, mode)]) in
  match mode, files w !! path with
  | ModeR, None => Raise FileNotFoundError
  | ModeR, Some _ => Ok (tt, w' (files w))
  | ModeW, _ => Ok (tt, w' (<[path := []]> (files w)))
  | ModeA, None => Ok (tt, w' (<[path := []]> (files w)))
  | ModeA, Some _ => Ok (tt, w' (files w))
  end.

(** The records [csv.reader(f)] yields on the file. *)
Definition csv_reader (path : string) : io (list record) := λ w,
  match files w !! path with
  | Some recs => Ok (recs, w)
  | None => Raise FileNotFoundError
  end.

(** [csv.writer(f).writerow(fields)] *)
Definition csv_writerow (path : string) (fields : record) : io unit := λ w,
  match files w !! path with
  | Some recs => Ok (tt, World (<[path := recs ++ [fields]]> (files w)) (opened w))
  | None => Raise FileNotFoundError
  end.

(** The line [csv.writer] emits for a record, without its terminator
    (dialect [excel], [QUOTE_MINIMAL]): the fields are joined by commas;
    a field holding a comma, a quote, CR or LF is put in quotes, its own
    quotes doubled; a record that is one empty field is a pair of quotes. *)
Definition quote_char : ascii := ascii_of_nat 34.

Definition needs_quotes (field : string) : bool :=
  existsb (λ c, bool_decide (c ∈ ["," ; quote_char; "013"; "010"]%char))
          (list_ascii_of_string field).

Fixpoint double_quotes (s : string) : string :=
  match s with
  | EmptyString => EmptyString
  | String c s' =>
      if decide (c = quote_char)
      then String c (String c (double_quotes s'))
      else String c (double_quotes s')
  end.

Definition csv_field (field : string) : string :=
  if needs_quotes field
  then String quote_char (double_quotes field +:+ String quote_char EmptyString)
  else field.

Definition csv_line (fields : record) : string :=
  match fields with
  | [EmptyString] => String quote_char (String quote_char EmptyString)
  | _ => join "," (csv_field <$> fields)
  end.

(** The text of a file that holds the records [recs], as [csv.writer]
    leaves it: each record on a line of its own, ended by CR LF. *)
Definition line_terminator : string :=
  String "013"%char (String "010"%char EmptyString).

Fixpoint file_text (recs : list record) : string :=
  match recs with
  | [] => EmptyString
  | r :: rest => csv_line r +:+ line_terminator +:+ file_text rest
  end.

(** ** The ledger *)

Section Ledger.

(** The type of the prices in a price map, and Python's [str] on it. *)
Context {V : Type} (py_str : V → string).

(** A value of a row dictionary: a [str], a price, or [None]. *)
Inductive cell :=
  | CStr (s : string)
  | CVal (v : V)
  | CNone.

(** The text [csv.writer] emits for a field: [None] is the empty string,
    a [str] is itself, anything else goes through [str()]. *)
Definition field_text (c : cell) : string :=
  match c with
  | CStr s => s
  | CVal v => py_str v
  | CNone => ""
  end.

(** [d.get(key, "")] on a row dictionary. *)
Definition row_get (d : gmap string cell) (key : string) : cell :=
  default (CStr "") (d !! key).

(** [price_map.get(s, "")] *)
Definition price_get (price_map : gmap string V) (s : string) : cell :=
  match price_map !! s with
  | Some v => CVal v
  | None => CStr ""
  end.

(** [DictWriter._dict_to_list(rowdict)] once the checks have passed, as
    the text of its fields: [rowdict.get(key, "")] for every field name. *)
Definition dict_to_list (fieldnames : list string)
    (rowdict : gmap string cell) : record :=
  field_text <$> (row_get rowdict <$> fieldnames).

(** [csv.DictWriter(f, fieldnames).writerow(rowdict)], with the default
    [restval=""] and [extrasaction="raise"]: a key that is no field name
    is a [ValueError]. *)
Definition dict_writerow (path : string) (fieldnames : list string)
    (rowdict : gmap string cell) : io unit :=
  if decide (dom rowdict ⊆ list_to_set fieldnames)
  then csv_writerow path (dict_to_list fieldnames rowdict)
  else λ _, Raise ValueError.

(** [DictWriter.writeheader()]: writes [dict(zip(fieldnames, fieldnames))]. *)
Definition dict_writeheader (path : string) (fieldnames : list string) : io unit :=
  dict_writerow path fieldnames
    (foldl (λ d k, <[k := CStr k]> d) ∅ fieldnames).

(** [DictWriter.writerows(rows)] *)
Fixpoint dict_writerows (path : string) (fieldnames : list string)
    (rows : list (gmap string cell)) : io unit :=
  match rows with
  | [] => mret tt
  | r :: rest =>
      dict_writerow path fieldnames r ;;
      dict_writerows path fieldnames rest
  end.

(** One row of [csv.DictReader]: [dict(zip(fieldnames, row))], then
    [None] under every field name the row is too short for.  The cells a
    long row has beyond the header go under the key [None], which no
    [str] key reads; they are left out. *)
Definition dict_reader_row (fieldnames : list string) (row : record)
    : gmap string cell :=
  let d := foldl (λ d kv, <[kv.1 := CStr kv.2]> d) ∅ (zip fieldnames row) in
  foldl (λ d k, <[k := CNone]> d) d (drop (length row) fieldnames).

(** The rows [csv.DictReader(f)] yields: the first record is the list of
    field names, and records that are [[]] are skipped. *)
Definition dict_reader (recs : list record) : list (gmap string cell) :=
  match recs with
  | [] => []
  | fieldnames :: rows =>
      dict_reader_row fieldnames <$> filter (λ r, r ≠ []) rows
  end.

(** The row of the first two cases and of the append:
    [{"timestamp": timestamp, **{s: price_map.get(s, "") for s in cols}}]. *)
Definition new_row (timestamp : string) (cols : list string)
    (price_map : gmap string V) : gmap string cell :=
  foldl (λ d s, <[s := price_get price_map s]> d)
        {["timestamp" := CStr timestamp]} cols.

(** Cases 1 and 2: write the header and one row to a fresh file. *)
Definition write_fresh (csv_path timestamp : string) (symbols : list string)
    (price_map : gmap string V) : io unit :=
  let desired_header := "timestamp" :: symbols in
  open_file csv_path ModeW ;;
  dict_writeheader csv_path desired_header ;;
  dict_writerow csv_path desired_header (new_row timestamp symbols price_map).

(** [[c for c in old_header if c and c != "timestamp"]] *)
Definition old_cols (old_header : list string) : list string :=
  filter (λ c, c ≠ "" ∧ c ≠ "timestamp") old_header.

(** [[c for c in symbols if c not in old_cols]] *)
Definition new_cols (old_header symbols : list string) : list string :=
  filter (λ c, c ∉ old_cols old_header) symbols.

Definition union_header (old_header symbols : list string) : list string :=
  "timestamp" :: old_cols old_header ++ new_cols old_header symbols.

(** [{h: row.get(h, "") for h in union_header}] *)
Definition fixed (union_header : list string) (row : gmap string cell)
    : gmap string cell :=
  foldl (λ d h, <[h := row_get row h]> d) ∅ union_header.

(** The branch [if union_header != old_header]: read every row,
    re-project it, and write the file anew. *)
Definition expand_header (csv_path : string) (union_header : list string)
    : io unit :=
  open_file csv_path ModeR ;;
  recs ← csv_reader csv_path ;
  let rows := fixed union_header <$> dict_reader recs in
  open_file csv_path ModeW ;;
  dict_writeheader csv_path union_header ;;
  dict_writerows csv_path union_header rows.

Definition ensure_header_and_append_row (csv_path timestamp : string)
    (symbols : list string) (price_map : gmap string V) : io unit :=
  let symbols := normalize_symbols symbols in
  (* Case 1: CSV does not exist *)
  ex ← path_exists csv_path ;
  if negb ex then write_fresh csv_path timestamp symbols price_map
  else
    (* Read existing header *)
    open_file csv_path ModeR ;;
    recs ← csv_reader csv_path ;
    match head recs with
    | None | Some [] =>
        (* Case 2: empty file *)
        write_fresh csv_path timestamp symbols price_map
    | Some old_header =>
        (* Merge headers *)
        let union_header := union_header old_header symbols in
        (* Expand header if needed *)
        (if decide (union_header ≠ old_header)
         then expand_header csv_path union_header
         else mret tt) ;;
        (* Append new row *)
        let row_to_write := new_row timestamp (tail union_header) price_map in
        open_file csv_path ModeA ;;
        dict_writerow csv_path union_header row_to_write
    end.

(** *** Vocabulary of the specification *)

(** The text of the appended row in the column of symbol [s]: the price
    when the price map has one, the empty string otherwise. *)
Definition price_text (price_map : gmap string V) (s : string) : string :=
  field_text (price_get price_map s).

(** A file that is absent or has no header line: no record at all, or a
    blank first line. *)
Definition no_header_line (content : option (list record)) : Prop :=
  match content with
  | None | Some [] | Some ([] :: _) => True
  | Some ((_ :: _) :: _) => False
  end.

(** Column names of a ledger: distinct, not empty, and none of them the
    name of the timestamp column. *)
Definition well_formed_columns (cols : list string) : Prop :=
  NoDup cols ∧ ("" ∉ cols) ∧ "timestamp" ∉ cols.

(** The ledger invariant: the header is the timestamp column followed by
    well-formed columns, and every row has one cell per column. *)
Definition well_formed_ledger (recs : list record) : Prop :=
  match recs with
  | (c :: cols) :: rows =>
      c = "timestamp" ∧ well_formed_columns cols ∧
      Forall (λ r : record, length r = S (length cols)) rows
  | _ => False
  end.

(** The content of the file at [path] once the call has returned. *)
Definition content_after (m : io unit) (w : world) (path : string)
    : option (list record) :=
  match m w with
  | Ok (_, w') => files w' !! path
  | Raise _ => None
  end.

(** Ledgers produced by the reconciler: created by a call on a file that
    was absent or had no header line, then only changed by further calls. *)
Inductive produced : list record → Prop :=
  | produced_create w path timestamp symbols price_map recs :
      no_header_line (files w !! path) →
      content_after
        (ensure_header_and_append_row path timestamp symbols price_map)
        w path = Some recs →
      produced recs
  | produced_update w path timestamp symbols price_map recs recs' :
      produced recs →
      files w !! path = Some recs →
      content_after
        (ensure_header_and_append_row path timestamp symbols price_map)
        w path = Some recs' →
      produced recs'.

End Ledger.

Arguments cell V : clear implicits.

(** ** The quote fetcher *)

(** *** Python's dynamic operations on JSON values *)

Definition float_is_zero (f : spec_float) : bool :=
  match f with S754_zero _ => true | _ => false end.

Definition float_is_finite (f : spec_float) : bool :=
  match f with S754_zero _ | S754_finite _ _ _ => true | _ => false end.

(** [bool(v)] *)
Definition json_truthy (v : json) : bool :=
  match v with
  | JNull => false
  | JBool b => b
  | JInt z => negb (z =? 0)%Z
  | JFloat f => negb (float_is_zero f)
  | JStr s => truthy s
  | JList l => match l with [] => false | _ => true end
  | JDict d => match d with [] => false | _ => true end
  end.

(** [a or b] *)
Definition py_or (a b : json) : json := if json_truthy a then a else b.

(** The value a [dict] built by [json.loads] has under [key]: the last
    member with that name. *)
Fixpoint dict_lookup (d : list (string * json)) (key : string) : option json :=
  match d with
  | [] => None
  | (k, v) :: d' =>
      match dict_lookup d' key with
      | Some v' => Some v'
      | None => if decide (k = key) then Some v else None
      end
  end.

(** [o.get(key, dflt)]: only a [dict] has the method. *)
Definition py_get (o : json) (key : string) (dflt : json) : result json :=
  match o with
  | JDict d => Ok (default dflt (dict_lookup d key))
  | _ => Raise AttributeError
  end.

(** [v != 0] *)
Definition py_ne_zero (v : json) : bool :=
  match v with
  | JInt z => negb (z =? 0)%Z
  | JFloat f => negb (float_is_zero f)
  | JBool b => b
  | _ => true
  end.

(** [float(z)] for an [int]: the nearest binary64 value, ties to even,
    and [OverflowError] when that is out of range. *)
Definition float_of_int (z : Z) : result spec_float :=
  match binary_normalize 53 1024 z 0 false with
  | S754_infinity _ => Raise OverflowError
  | f => Ok f
  end.

Section Fetcher.

(** [float(s)] for a [str]: the float the text denotes, or [None] where
    Python raises [ValueError]. *)
Context (float_of_str : string → option spec_float).

(** [float(v)] *)
Definition py_float (v : json) : result spec_float :=
  match v with
  | JFloat f => Ok f
  | JInt z => float_of_int z
  | JBool b => float_of_int (if b then 1 else 0)
  | JStr s =>
      match float_of_str s with
      | Some f => Ok f
      | None => Raise ValueError
      end
  | JNull | JList _ | JDict _ => Raise TypeError
  end.

(** *** The environment of [get_prices] *)

(** The arguments of the call [requests.get(URL, headers=..., params=...,
    timeout=15)]. *)
Record request := Request {
  req_url : string;
  req_headers : list (string * string);
  req_params : list (string * string);
  req_timeout : Z
}.

(** What the call does: it raises a [requests.RequestException], or it
    returns a response [r] with [r.status_code], [r.text] and the value
    of [r.json()], which raises when the body is not JSON. *)
Inductive http_outcome :=
  | RequestException
  | Response (status_code : Z) (text : string) (body : option json).

Record environment := Environment {
  API_KEY : option string;                      (* os.getenv("CMC_API_KEY") *)
  requests_get : request → http_outcome
}.

Definition URL : string :=
  "https://pro-api.coinmarketcap.com/v1/cryptocurrency/quotes/latest".

(** *** [get_prices] *)

(** The body of the loop [for sym in symbols]: the price to store under
    [sym], or [None] when the symbol is skipped. *)
Definition quote_price (returned : json) (convert sym : string)
    : result (option spec_float) :=
  item ← py_get returned sym JNull ;
  if negb (json_truthy item) then mret None
  else
    q ← py_get item "quote" JNull ;
    q' ← py_get (py_or q (JDict [])) convert JNull ;
    let quote := py_or q' (JDict []) in
    price ← py_get quote "price" JNull ;
    match price with
    | JNull => mret None
    | _ =>
        match py_float price with
        | Ok f => mret (Some f)
        | Raise TypeError | Raise ValueError => mret None
        | Raise e => Raise e
        end
    end.

Fixpoint collect_prices (returned : json) (convert : string)
    (symbols : list string) (out : gmap string spec_float)
    : result (gmap string spec_float) :=
  match symbols with
  | [] => mret out
  | sym :: rest =>
      p ← quote_price returned convert sym ;
      collect_prices returned convert rest
        (match p with Some f => <[sym := f]> out | None => out end)
  end.

Definition get_prices (env : environment) (symbols : list string)
    (convert : string) : result (gmap string spec_float) :=
  match API_KEY env with
  | None | Some "" => Raise (RuntimeError KeyNotFound)
  | Some key =>
      let symbols := normalize_symbols symbols in
      match symbols with
      | [] => Raise (RuntimeError SymbolListEmpty)
      | _ =>
          let headers :=
            [("Accepts", "application/json"); ("X-CMC_PRO_API_KEY", key)] in
          let params :=
            [("symbol", join "," symbols); ("convert", convert)] in
          match requests_get env (Request URL headers params 15) with
          | RequestException => Raise (RuntimeError FailedToCall)
          | Response status_code text body =>
              if decide (status_code ≠ 200%Z)
              then Raise (RuntimeError (HttpStatus status_code text))
              else
                match body with
                | None => Raise JSONDecodeError
                | Some data =>
                    st ← py_get data "status" (JDict []) ;
                    let status := py_or st (JDict []) in
                    code ← py_get status "error_code" (JInt 0) ;
                    if py_ne_zero code
                    then
                      msg ← py_get status "error_message" JNull ;
                      Raise (RuntimeError (ApiError code msg))
                    else
                      rt ← py_get data "data" (JDict []) ;
                      let returned := py_or rt (JDict []) in
                      collect_prices returned convert symbols ∅
                end
          end
      end
  end.

(** *** Vocabulary of the specification *)

(** [v[key]] for a JSON object [v], and [null] where there is no such
    member. *)
Definition member (v : json) (key : string) : json :=
  match v with
  | JDict d => default JNull (dict_lookup d key)
  | _ => JNull
  end.

(** The price the response quotes for [sym]:
    [data[sym].quote[convert].price], [null] when it is missing. *)
Definition quoted_price (returned : json) (convert sym : string) : json :=
  member (member (member (member returned sym) "quote") convert) "price".

(** A value in the place of a JSON object that is one, or that counts as
    none ([null], [false], [0], an empty string, list or object). *)
Definition object_or_nothing (v : json) : bool :=
  match v with
  | JDict _ => true
  | _ => negb (json_truthy v)
  end.

(** The entry of [sym] has the shape of the HTTP contract: objects down
    to the price. *)
Definition well_shaped (returned : json) (convert sym : string) : Prop :=
  object_or_nothing (member returned sym) ∧
  object_or_nothing (member (member returned sym) "quote") ∧
  object_or_nothing (member (member (member returned sym) "quote") convert).

(** A quoted price that is no number: text that does not denote a float,
    a list or an object. *)
Definition non_numeric (price : json) : Prop :=
  match price with
  | JStr s => float_of_str s = None
  | JList _ | JDict _ => True
  | _ => False
  end.

(** What the loop body does with the price it has found: skip [None],
    store the float, skip on [TypeError] and [ValueError]. *)
Definition price_outcome (price : json) : result (option spec_float) :=
  match price with
  | JNull => Ok None
  | _ =>
      match py_float price with
      | Ok f => Ok (Some f)
      | Raise TypeError | Raise ValueError => Ok None
      | Raise e => Raise e
      end
  end.

(** The one request [get_prices] sends. *)
Definition quotes_request (key : string) (symbols : list string)
    (convert : string) : request :=
  Request URL
    [("Accepts", "application/json"); ("X-CMC_PRO_API_KEY", key)]
    [("symbol", join "," symbols); ("convert", convert)]
    15.

End Fetcher.

(** *** The error taxonomy of the specification *)

Inductive error_class :=
  | ConfigError
  | InputError
  | NetworkError
  | ApiErrorClass.

(** The class the specification gives each failure of [get_prices]: the
    source raises one exception type, [RuntimeError], and tells the
    failures apart by their message. *)
Definition classify (e : exn) : option error_class :=
  match e with
  | RuntimeError KeyNotFound => Some ConfigError
  | RuntimeError SymbolListEmpty => Some InputError
  | RuntimeError FailedToCall => Some NetworkError
  | RuntimeError (HttpStatus _ _) => Some ApiErrorClass
  | RuntimeError (ApiError _ _) => Some ApiErrorClass
  | _ => None
  end.

(** ** Sample data *)

(** In the samples a price stands as the text [str()] prints for it, and
    [id] is [str]. *)

Definition no_file : world := World ∅ [].

Definition ledger_btc_eth : list record :=
  [["timestamp"; "BTC"; "ETH"]; ["T0"; "50000.0"; "3000.0"]].

Definition one_ledger : world := World {["prices.csv" := ledger_btc_eth]} [].

Definition ledger_twice_btc : list record :=
  [["timestamp"; "BTC"; "BTC"]; ["T0"; "1.0"; "2.0"]].

Definition twice_btc : world := World {["prices.csv" := ledger_twice_btc]} [].

Definition prices_btc : gmap string string := {["BTC" := "50000.0"]}.

Definition prices_btc_ada : gmap string string :=
  {["BTC" := "51000.0"; "ADA" := "0.5"]}.

(** A reading of [float(s)] that takes no text for a number. *)
Definition no_text_price : string → option spec_float := λ _, None.

(** [50000.0] *)
Definition float_50000 : spec_float := S754_finite false 6871947673600000 (-37).

(** [{<sym>: {quote: {USD: {price: ...}}}}] *)
Definition entry (price : json) : json :=
  JDict [("quote", JDict [("USD", JDict [("price", price)])])].

Definition quotes_partial : list (string * json) :=
  [("BTC", entry (JFloat float_50000)); ("ETH", entry (JStr "n/a"))].

Definition body_partial : list (string * json) :=
  [("status", JDict [("error_code", JInt 0)]); ("data", JDict quotes_partial)].

Definition env_partial : environment :=
  Environment (Some "key") (λ _, Response 200 "ok" (Some (JDict body_partial))).

Definition body_infinite : list (string * json) :=
  [("status", JDict [("error_code", JInt 0)]);
   ("data", JDict [("BTC", entry (JFloat (S754_infinity false)))])].

Definition env_infinite : environment :=
  Environment (Some "key") (λ _, Response 200 "ok" (Some (JDict body_infinite))).

Definition body_text_quote : list (string * json) :=
  [("status", JDict [("error_code", JInt 0)]);
   ("data", JDict [("BTC", JDict [("quote", JStr "n/a")])])].

Definition env_text_quote : environment :=
  Environment (Some "key") (λ _, Response 200 "ok" (Some (JDict body_text_quote))).

(** * Proofs *)

(** ** Strings *)

Lemma is_space_upper_char c : is_space (upper_char c) = is_space c.
Proof. by destruct c as [[] [] [] [] [] [] [] []]; vm_compute. Qed.

Lemma upper_char_idem c : upper_char (upper_char c) = upper_char c.
Proof. by destruct c as [[] [] [] [] [] [] [] []]; vm_compute. Qed.

Lemma upper_char_not_lower_t c : upper_char c ≠ "t"%char.
Proof. by destruct c as [[] [] [] [] [] [] [] []]; vm_compute. Qed.

Lemma upper_idem s : upper (upper s) = upper s.
Proof. induction s as [|c s IH]; simpl; [done|]. by rewrite upper_char_idem, IH. Qed.

Lemma upper_empty s : upper s = "" ↔ s = "".
Proof. by destruct s. Qed.

Lemma lstrip_upper s : lstrip (upper s) = upper (lstrip s).
Proof.
  induction s as [|c s IH]; simpl; [done|].
  rewrite is_space_upper_char. by destruct (is_space c).
Qed.

Lemma rstrip_upper s : rstrip (upper s) = upper (rstrip s).
Proof.
  induction s as [|c s IH]; simpl; [done|].
  rewrite IH, is_space_upper_char.
  destruct (rstrip s); simpl; [|done]. by destruct (is_space c).
Qed.

Lemma strip_upper s : strip (upper s) = upper (strip s).
Proof. unfold strip. by rewrite lstrip_upper, rstrip_upper. Qed.

Lemma lstrip_head c r s : lstrip s = String c r → is_space c = false.
Proof.
  induction s as [|a s IH]; simpl; [done|].
  destruct (is_space a) eqn:Ha; [done|]. by intros [= <- _].
Qed.

Lemma rstrip_cons c s : is_space c = false → rstrip (String c s) = String c (rstrip s).
Proof. intros Hc. simpl. rewrite Hc. by destruct (rstrip s). Qed.

Lemma rstrip_idem s : rstrip (rstrip s) = rstrip s.
Proof.
  induction s as [|c s IH]; simpl; [done|].
  destruct (rstrip s) as [|a r] eqn:Hr.
  - destruct (is_space c) eqn:Hc; simpl; [done|]. by rewrite Hc.
  - change (rstrip (String c (String a r))) with
      (match rstrip (String a r) with
       | "" => if is_space c then "" else String c ""
       | r' => String c r' end).
    by rewrite IH.
Qed.

Lemma strip_idem s : strip (strip s) = strip s.
Proof.
  unfold strip. destruct (lstrip s) as [|c r] eqn:Hl; [done|].
  pose proof (lstrip_head _ _ _ Hl) as Hc.
  rewrite rstrip_cons by done. cbn [lstrip]. rewrite Hc.
  rewrite rstrip_cons by done. by rewrite rstrip_idem.
Qed.

Lemma canonical_idem s : canonical (canonical s) = canonical s.
Proof. unfold canonical. by rewrite strip_upper, strip_idem, upper_idem. Qed.

Lemma truthy_false s : truthy s = false ↔ s = "".
Proof. by destruct s. Qed.

Lemma is_blank_false s : is_blank s = false ↔ strip s ≠ "".
Proof.
  unfold is_blank. destruct s as [|c s]; [done|].
  change (truthy (String c s)) with true. cbn [negb orb].
  destruct (strip (String c s)); [by split|]. by split.
Qed.

Lemma is_blank_canonical s : is_blank s = false → is_blank (canonical s) = false.
Proof.
  rewrite !is_blank_false. unfold canonical.
  rewrite strip_upper, strip_idem. intros H. by rewrite upper_empty.
Qed.

Lemma canonical_nonempty s : is_blank s = false → canonical s ≠ "".
Proof. rewrite is_blank_false. unfold canonical. by rewrite upper_empty. Qed.

Lemma canonical_not_timestamp s : canonical s ≠ "timestamp".
Proof.
  unfold canonical. destruct (strip s) as [|c r]; [done|]. simpl.
  intros [= H _]. by apply upper_char_not_lower_t in H.
Qed.

(** ** First occurrences *)

Lemma elem_of_keep_first x l : x ∈ keep_first l ↔ x ∈ l.
Proof.
  induction l as [|y l IH]; simpl; [done|].
  rewrite !elem_of_cons, list_elem_of_filter, IH.
  destruct (decide (x = y)); tauto.
Qed.

Lemma NoDup_keep_first l : NoDup (keep_first l).
Proof.
  induction l as [|y l IH]; simpl; constructor.
  - rewrite list_elem_of_filter. tauto.
  - by apply NoDup_filter.
Qed.

Lemma filter_ne_notin (x : string) (l : list string) : x ∉ l → filter (λ y, y ≠ x) l = l.
Proof.
  induction l as [|y l IH]; [done|].
  rewrite not_elem_of_cons. intros [Hxy Hx].
  rewrite filter_cons_True by done. f_equal. auto.
Qed.

Lemma keep_first_NoDup l : NoDup l → keep_first l = l.
Proof.
  induction 1 as [|x l Hx _ IH]; simpl; [done|].
  rewrite IH. f_equal. by apply filter_ne_notin.
Qed.

Lemma filter_filter_ext {A} (P Q R : A → Prop)
    `{!∀ x, Decision (P x)} `{!∀ x, Decision (Q x)} `{!∀ x, Decision (R x)}
    (l : list A) :
  (∀ x, R x ↔ P x ∧ Q x) → filter P (filter Q l) = filter R l.
Proof.
  intros Hiff. rewrite list_filter_filter. apply list_filter_iff.
  intros x. symmetry. apply Hiff.
Qed.

(** The loop computes what it has accumulated followed by the first
    occurrences not yet seen. *)
Lemma normalize_loop_spec symbols cleaned seen :
  (∀ x, x ∈ seen ↔ x ∈ cleaned) →
  normalize_loop symbols cleaned seen =
  cleaned ++ filter (λ y, y ∉ cleaned) (normalize_spec symbols).
Proof.
  unfold normalize_spec.
  revert cleaned seen. induction symbols as [|s rest IH]; intros cleaned seen Hseen.
  - simpl. by rewrite app_nil_r.
  - cbn [normalize_loop]. destruct (is_blank s) eqn:Hb.
    + rewrite filter_cons_False by (by rewrite Hb). by apply IH.
    + rewrite filter_cons_True by done. cbn [fmap list_fmap keep_first].
      destruct (decide (canonical s ∈ seen)) as [Hin|Hin]; rewrite Hseen in Hin.
      * rewrite filter_cons_False by (by intros ?).
        rewrite (IH _ _ Hseen). f_equal. symmetry.
        apply filter_filter_ext. intros x. split; [|tauto].
        intros Hx. split; [done|]. by intros ->.
      * rewrite filter_cons_True by done.
        rewrite (IH (cleaned ++ [canonical s]) ({[canonical s]} ∪ seen)).
        2:{ intros x. rewrite elem_of_union, elem_of_singleton, elem_of_app,
              list_elem_of_singleton, Hseen. tauto. }
        rewrite <- app_assoc. cbn [app]. do 2 f_equal. symmetry.
        apply filter_filter_ext. intros x.
        rewrite elem_of_app, list_elem_of_singleton. tauto.
Qed.

Lemma normalize_symbols_spec symbols :
  normalize_symbols symbols = normalize_spec symbols.
Proof.
  unfold normalize_symbols.
  rewrite (normalize_loop_spec _ [] ∅)
    by (intros x; split; [intros []%not_elem_of_empty|intros []%elem_of_nil]).
  cbn [app]. induction (normalize_spec symbols) as [|x l IH]; [done|].
  rewrite filter_cons_True by apply not_elem_of_nil. by f_equal.
Qed.

Lemma elem_of_normalize_symbols y symbols :
  y ∈ normalize_symbols symbols ↔
  ∃ s, s ∈ symbols ∧ is_blank s = false ∧ y = canonical s.
Proof.
  rewrite normalize_symbols_spec. unfold normalize_spec.
  rewrite elem_of_keep_first, list_elem_of_fmap.
  split.
  - intros (s & -> & [Hb Hs]%list_elem_of_filter). by exists s.
  - intros (s & Hs & Hb & ->). exists s. by rewrite list_elem_of_filter.
Qed.

Lemma NoDup_normalize_symbols symbols : NoDup (normalize_symbols symbols).
Proof. rewrite normalize_symbols_spec. apply NoDup_keep_first. Qed.

Lemma normalize_symbols_canonical y symbols :
  y ∈ normalize_symbols symbols →
  is_blank y = false ∧ canonical y = y ∧ y ≠ "" ∧ y ≠ "timestamp".
Proof.
  rewrite elem_of_normalize_symbols. intros (s & _ & Hb & ->).
  split_and!.
  - by apply is_blank_canonical.
  - apply canonical_idem.
  - by apply canonical_nonempty.
  - apply canonical_not_timestamp.
Qed.

Lemma normalize_symbols_idem symbols :
  normalize_symbols (normalize_symbols symbols) = normalize_symbols symbols.
Proof.
  rewrite (normalize_symbols_spec (normalize_symbols symbols)).
  unfold normalize_spec.
  pose proof (NoDup_normalize_symbols symbols) as Hnd.
  assert (Hall : Forall (λ y, is_blank y = false ∧ canonical y = y)
                        (normalize_symbols symbols)).
  { apply Forall_forall. intros y Hy.
    by destruct (normalize_symbols_canonical _ _ Hy) as (? & ? & _). }
  induction Hall as [|y l [Hb Hc] Hall IH]; [done|].
  apply NoDup_cons in Hnd as [Hy Hnd].
  rewrite filter_cons_True by done. cbn [fmap list_fmap keep_first].
  rewrite Hc. f_equal. specialize (IH Hnd).
  change (list_fmap _ _ canonical ?l) with (canonical <$> l).
  rewrite IH. by apply filter_ne_notin.
Qed.

(** A split of a filtered list comes from a split of the list. *)
Lemma filter_cons_inv {A} (P : A → Prop) `{!∀ x, Decision (P x)} k y b :
  filter P k = y :: b →
  ∃ k1 k2, k = k1 ++ y :: k2 ∧ filter P k2 = b.
Proof.
  induction k as [|a k IH]; [done|]. rewrite filter_cons.
  destruct (decide (P a)).
  - intros [= -> <-]. by exists [], k.
  - intros (k1 & k2 & -> & Hk)%IH. by exists (a :: k1), k2.
Qed.

Lemma filter_app_inv {A} (P : A → Prop) `{!∀ x, Decision (P x)} k a b :
  filter P k = a ++ b →
  ∃ k1 k2, k = k1 ++ k2 ∧ filter P k2 = b.
Proof.
  revert k. induction a as [|y a IH]; intros k Hk.
  - by exists [], k.
  - apply filter_cons_inv in Hk as (k1 & k2 & -> & Hk).
    apply IH in Hk as (k3 & k4 & -> & Hk).
    exists (k1 ++ y :: k3), k4. by rewrite <- app_assoc.
Qed.

Lemma filter_two_inv {A} (P : A → Prop) `{!∀ x, Decision (P x)}
    k o1 y1 o2 y2 o3 :
  filter P k = o1 ++ y1 :: o2 ++ y2 :: o3 →
  ∃ p1 p2 p3, k = p1 ++ y1 :: p2 ++ y2 :: p3.
Proof.
  intros (k1 & k2 & -> & Hk)%filter_app_inv.
  apply filter_cons_inv in Hk as (k3 & k4 & -> & Hk).
  apply filter_app_inv in Hk as (k5 & k6 & -> & Hk).
  apply filter_cons_inv in Hk as (k7 & k8 & -> & _).
  exists (k1 ++ k3), (k5 ++ k7), k8. by rewrite <- !app_assoc.
Qed.

(** First-occurrence order, without indices: when [y1] comes before [y2]
    in the result, the first [y1] of the list comes before every [y2]. *)
Lemma keep_first_order l o1 y1 o2 y2 o3 :
  keep_first l = o1 ++ y1 :: o2 ++ y2 :: o3 →
  ∃ l1 l2, l = l1 ++ y1 :: l2 ∧ (y1 ∉ l1) ∧ (y2 ∉ l1) ∧ y2 ∈ l2 ∧ y1 ≠ y2.
Proof.
  revert o1 o2 o3. induction l as [|x l IH]; intros o1 o2 o3 Hk.
  { by destruct o1. }
  pose proof (NoDup_keep_first (x :: l)) as Hnd. rewrite Hk in Hnd.
  cbn [keep_first] in Hk. destruct o1 as [|z o1].
  - injection Hk as -> Hk.
    assert (y2 ∈ filter (λ y, y ≠ y1) (keep_first l)) as Hin.
    { rewrite Hk. apply elem_of_app. right. left. }
    apply list_elem_of_filter in Hin as [Hne Hin].
    apply (proj1 (elem_of_keep_first _ _)) in Hin.
    exists [], l. split_and!; [done|apply not_elem_of_nil..|done|by intros ->].
  - injection Hk as -> Hk.
    apply NoDup_cons in Hnd as [Hz _].
    rewrite !elem_of_app, !elem_of_cons, !elem_of_app, !elem_of_cons in Hz.
    apply filter_two_inv in Hk as (p1 & p2 & p3 & Hp).
    destruct (IH _ _ _ Hp) as (l1 & l2 & -> & H1 & H2 & H3 & Hne).
    exists (z :: l1), l2. rewrite !not_elem_of_cons.
    split_and!; [done|intros ->; tauto|done|intros ->; tauto|done..].
Qed.

(** Claim C5.  Every entry of [normalize_symbols symbols] is not empty
    and is the trimmed, upper-cased form of an entry of the input that is
    not blank; every such form occurs in the result; the result has no
    duplicates and is the list of the first occurrences of the canonical
    forms, in their order: when [y1] comes before [y2] in the result, the
    first [y1] among the canonical forms comes before every [y2].  The
    function is total, the empty list gives the empty list, and
    [["btc"; " ETH"; "BTC"]] gives [["BTC"; "ETH"]]. *)
Theorem normalize_symbols_correct symbols :
  (∀ y, y ∈ normalize_symbols symbols →
        y ≠ "" ∧ ∃ s, s ∈ symbols ∧ strip s ≠ "" ∧ y = upper (strip s)) ∧
  (∀ s, s ∈ symbols → strip s ≠ "" →
        upper (strip s) ∈ normalize_symbols symbols) ∧
  NoDup (normalize_symbols symbols) ∧
  normalize_symbols symbols =
    keep_first (canonical <$> filter (λ s, is_blank s = false) symbols) ∧
  (∀ o1 y1 o2 y2 o3,
     normalize_symbols symbols = o1 ++ y1 :: o2 ++ y2 :: o3 →
     ∃ l1 l2,
       canonical <$> filter (λ s, is_blank s = false) symbols = l1 ++ y1 :: l2 ∧
       (y1 ∉ l1) ∧ (y2 ∉ l1) ∧ y2 ∈ l2) ∧
  normalize_symbols [] = [] ∧
  normalize_symbols ["btc"; " ETH"; "BTC"] = ["BTC"; "ETH"].
Proof.
  split_and!.
  - intros y Hy. split.
    + by apply normalize_symbols_canonical in Hy as (_ & _ & ? & _).
    + apply elem_of_normalize_symbols in Hy as (s & Hs & Hb & ->).
      exists s. by rewrite <- is_blank_false.
  - intros s Hs Hb. apply elem_of_normalize_symbols.
    exists s. by rewrite is_blank_false.
  - apply NoDup_normalize_symbols.
  - apply normalize_symbols_spec.
  - intros o1 y1 o2 y2 o3 Hn. rewrite normalize_symbols_spec in Hn.
    apply keep_first_order in Hn as (l1 & l2 & ? & ? & ? & ? & _).
    by exists l1, l2.
  - done.
  - by vm_compute.
Qed.

(** ** Dictionaries built key by key *)

Lemma lookup_foldl_insert {A} (f : string → A) (l : list string)
    (d : gmap string A) (k : string) :
  foldl (λ d s, <[s := f s]> d) d l !! k =
  if decide (k ∈ l) then Some (f k) else d !! k.
Proof.
  revert d. induction l as [|s l IH]; intros d; cbn [foldl].
  - by rewrite decide_False by apply not_elem_of_nil.
  - rewrite IH. destruct (decide (k ∈ l)) as [Hin|Hin].
    + by rewrite decide_True by (by right).
    + destruct (decide (k = s)) as [->|Hne].
      * rewrite decide_True by left. apply lookup_insert_eq.
      * rewrite decide_False by (by rewrite elem_of_cons; intros [?|?]).
        by apply lookup_insert_ne.
Qed.

Lemma dom_foldl_insert {A} (f : string → A) (l : list string)
    (d : gmap string A) :
  dom (foldl (λ d s, <[s := f s]> d) d l) = list_to_set l ∪ dom d.
Proof.
  apply set_eq. intros k.
  rewrite elem_of_union, elem_of_list_to_set, !elem_of_dom, lookup_foldl_insert.
  destruct (decide (k ∈ l)); [|tauto]. split; [by left|by eexists].
Qed.

(** ** The text of a file *)





(** ** Running the file operations *)

Lemma io_bind_ok {A B} (m : io A) (f : A → io B) w a w' :
  m w = Ok (a, w') → (m ≫= f) w = f a w'.
Proof. intros H. unfold mbind, io_bind. by rewrite H. Qed.

Section LedgerFacts.
Context {V : Type} (py_str : V → string).

Abbreviation cell := (cell V).

Lemma dict_writerow_ok path fieldnames (rowdict : gmap string cell) w recs :
  dom rowdict ⊆ list_to_set fieldnames →
  files w !! path = Some recs →
  dict_writerow py_str path fieldnames rowdict w =
  Ok (tt, World (<[path := recs ++ [dict_to_list py_str fieldnames rowdict]]> (files w))
                (opened w)).
Proof.
  intros Hdom Hf. unfold dict_writerow. rewrite decide_True by done.
  unfold csv_writerow. by rewrite Hf.
Qed.

Lemma dict_to_list_foldl_insert (f : string → cell) fieldnames :
  dict_to_list py_str fieldnames (foldl (λ d s, <[s := f s]> d) ∅ fieldnames) =
  (field_text py_str ∘ f) <$> fieldnames.
Proof.
  unfold dict_to_list. rewrite <- list_fmap_compose.
  apply list_fmap_ext. intros i k Hk. cbn. unfold row_get.
  rewrite lookup_foldl_insert, decide_True; [done|].
  by eapply list_elem_of_lookup_2.
Qed.

Lemma dict_writeheader_ok path fieldnames w recs :
  files w !! path = Some recs →
  dict_writeheader py_str path fieldnames w =
  Ok (tt, World (<[path := recs ++ [fieldnames]]> (files w)) (opened w)).
Proof.
  intros Hf. unfold dict_writeheader.
  rewrite (dict_writerow_ok _ _ _ _ recs); [|by rewrite dom_foldl_insert, dom_empty_L, union_empty_r_L|done].
  rewrite (dict_to_list_foldl_insert (@CStr V)).
  by rewrite (list_fmap_ext _ id fieldnames), list_fmap_id.
Qed.

Lemma dict_writerows_ok path fieldnames (rows : list (gmap string cell)) w recs :
  Forall (λ r, dom r ⊆ list_to_set fieldnames) rows →
  files w !! path = Some recs →
  dict_writerows py_str path fieldnames rows w =
  Ok (tt, World (<[path := recs ++ (dict_to_list py_str fieldnames <$> rows)]> (files w))
                (opened w)).
Proof.
  intros Hall. revert w recs. induction Hall as [|r rows Hr _ IH]; intros w recs Hf.
  - cbn. rewrite app_nil_r, insert_id by done. by destruct w.
  - cbn [dict_writerows].
    rewrite (io_bind_ok _ _ _ _ _ (dict_writerow_ok _ _ _ _ _ Hr Hf)).
    rewrite (IH _ (recs ++ [dict_to_list py_str fieldnames r]))
      by apply lookup_insert_eq.
    cbn [files opened]. rewrite insert_insert_eq, <- app_assoc. done.
Qed.

Lemma new_row_dom timestamp cols (price_map : gmap string V) :
  dom (new_row timestamp cols price_map) = list_to_set ("timestamp" :: cols).
Proof.
  unfold new_row. rewrite dom_foldl_insert, dom_singleton_L.
  cbn [list_to_set]. apply (comm_L (∪)).
Qed.

Lemma dict_to_list_new_row timestamp cols (price_map : gmap string V) :
  "timestamp" ∉ cols →
  dict_to_list py_str ("timestamp" :: cols) (new_row timestamp cols price_map) =
  timestamp :: (price_text py_str price_map <$> cols).
Proof.
  intros Hts. unfold dict_to_list, new_row. cbn [fmap list_fmap]. f_equal.
  - unfold row_get. rewrite lookup_foldl_insert, decide_False by done.
    by rewrite lookup_singleton_eq.
  - change (list_fmap ?A ?B ?f ?l) with (f <$> l).
    rewrite <- list_fmap_compose. apply list_fmap_ext. intros i k Hk. cbn.
    unfold row_get, price_text.
    rewrite lookup_foldl_insert, decide_True; [done|].
    by eapply list_elem_of_lookup_2.
Qed.

Lemma open_file_w path w :
  open_file path ModeW w =
  Ok (tt, World (<[path := []]> (files w)) (opened w ++ [(path, ModeW)])).
Proof. unfold open_file. by destruct (files w !! path). Qed.

Lemma write_fresh_ok path timestamp symbols (price_map : gmap string V) w :
  "timestamp" ∉ symbols →
  write_fresh py_str path timestamp symbols price_map w =
  Ok (tt, World (<[path := ["timestamp" :: symbols;
                            timestamp :: (price_text py_str price_map <$> symbols)]]>
                   (files w))
                (opened w ++ [(path, ModeW)])).
Proof.
  intros Hts. unfold write_fresh.
  rewrite (io_bind_ok _ _ _ _ _ (open_file_w _ _)).
  erewrite io_bind_ok; [|by apply dict_writeheader_ok, lookup_insert_eq].
  cbn [files opened]. rewrite insert_insert_eq.
  erewrite dict_writerow_ok;
    [|by rewrite new_row_dom|by apply lookup_insert_eq].
  cbn [files opened]. by rewrite insert_insert_eq, dict_to_list_new_row.
Qed.

End LedgerFacts.

Section ReconcilerFacts.
Context {V : Type} (py_str : V → string).

Abbreviation cell := (cell V).

(** ** The merged header *)

Lemma timestamp_notin_old_cols old_header : "timestamp" ∉ old_cols old_header.
Proof. unfold old_cols. rewrite list_elem_of_filter. tauto. Qed.

Lemma empty_notin_old_cols old_header : "" ∉ old_cols old_header.
Proof. unfold old_cols. rewrite list_elem_of_filter. tauto. Qed.

Lemma elem_of_new_cols c old_header symbols :
  c ∈ new_cols old_header (normalize_symbols symbols) ↔
  c ∈ normalize_symbols symbols ∧ c ∉ old_cols old_header.
Proof. unfold new_cols. rewrite list_elem_of_filter. tauto. Qed.

Lemma timestamp_notin_union_tail old_header symbols :
  "timestamp" ∉ tail (union_header old_header (normalize_symbols symbols)).
Proof.
  cbn [union_header tail]. rewrite elem_of_app, elem_of_new_cols.
  intros [H|[H _]].
  - by apply timestamp_notin_old_cols in H.
  - by apply normalize_symbols_canonical in H as (_ & _ & _ & ?).
Qed.

Lemma timestamp_notin_normalize symbols : "timestamp" ∉ normalize_symbols symbols.
Proof. by intros (_ & _ & _ & ?)%normalize_symbols_canonical. Qed.

Lemma old_cols_well_formed cols :
  well_formed_columns cols → old_cols ("timestamp" :: cols) = cols.
Proof.
  intros (_ & He & Ht). unfold old_cols.
  rewrite filter_cons_False by tauto.
  induction cols as [|c cols IH]; [done|].
  apply not_elem_of_cons in He as [? ?], Ht as [? ?].
  rewrite filter_cons_True by done. f_equal. auto.
Qed.

Lemma old_cols_union old_header symbols :
  old_cols (union_header old_header symbols) = old_cols old_header ++
    filter (λ c, c ≠ "" ∧ c ≠ "timestamp") (new_cols old_header symbols).
Proof.
  unfold union_header, old_cols at 1.
  rewrite filter_cons_False by tauto. rewrite filter_app. f_equal.
  unfold old_cols. rewrite list_filter_filter. apply list_filter_iff. tauto.
Qed.

(** ** Rows read back through [csv.DictReader] *)

Lemma lookup_zip_notin (h : list string) (r : record) (d : gmap string cell) k :
  k ∉ h →
  foldl (λ d kv, <[kv.1 := CStr kv.2]> d) d (zip h r) !! k = d !! k.
Proof.
  revert r d. induction h as [|a h IH]; intros r d Hk; [done|].
  apply not_elem_of_cons in Hk as [Hka Hk].
  destruct r as [|x r]; [done|]. cbn [zip zip_with foldl fst snd].
  rewrite IH by done. by apply lookup_insert_ne.
Qed.

Lemma lookup_zip_NoDup (h : list string) (r : record) (d : gmap string cell) i k :
  NoDup h → h !! i = Some k →
  foldl (λ d kv, <[kv.1 := CStr kv.2]> d) d (zip h r) !! k =
  match r !! i with Some x => Some (CStr x) | None => d !! k end.
Proof.
  intros Hnd. revert r d i.
  induction Hnd as [|a h Ha Hnd IH]; intros r d i Hi; [by destruct i|].
  destruct r as [|x r]; [by destruct i|]. cbn [zip zip_with foldl fst snd].
  destruct i as [|i].
  - injection Hi as ->. rewrite lookup_zip_notin by done. apply lookup_insert_eq.
  - change ((a :: h) !! S i) with (h !! i) in Hi.
    change ((x :: r) !! S i) with (r !! i).
    rewrite (IH _ _ _ Hi). destruct (r !! i); [done|].
    apply lookup_insert_ne. intros ->. apply Ha. by eapply list_elem_of_lookup_2.
Qed.

Lemma row_get_dict_reader_row (h : list string) (r : record) i k :
  NoDup h → h !! i = Some k →
  field_text py_str (row_get (dict_reader_row h r) k) = default "" (r !! i).
Proof.
  intros Hnd Hi. unfold row_get, dict_reader_row.
  rewrite (lookup_foldl_insert (λ _, CNone)).
  rewrite (lookup_zip_NoDup _ _ _ i) by done. rewrite lookup_empty.
  destruct (r !! i) as [x|] eqn:Hr.
  - rewrite decide_False; [done|]. intros (j & Hj)%list_elem_of_lookup_1.
    rewrite lookup_drop in Hj.
    pose proof (NoDup_lookup _ _ _ _ Hnd Hi Hj). apply lookup_lt_Some in Hr. lia.
  - rewrite decide_True; [done|]. apply lookup_ge_None in Hr.
    apply list_elem_of_lookup. exists (i - length r).
    rewrite lookup_drop. by replace (length r + (i - length r)) with i by lia.
Qed.

Lemma row_get_dict_reader_row_notin (h : list string) (r : record) k :
  k ∉ h → field_text py_str (row_get (dict_reader_row h r) k) = "".
Proof.
  intros Hk. unfold row_get, dict_reader_row.
  rewrite (lookup_foldl_insert (λ _, CNone)).
  rewrite decide_False.
  - by rewrite lookup_zip_notin, lookup_empty.
  - intros Hin. apply Hk. eapply (subseteq_drop (length r) h), Hin.
Qed.

(** A row read under a header without repeated names and written back
    under that header followed by fresh names: its cells, cut or padded
    to the header, then an empty string for each fresh name. *)
Lemma dict_to_list_dict_reader_row (h added : list string) (r : record) :
  NoDup h → (∀ k, k ∈ added → k ∉ h) →
  dict_to_list py_str (h ++ added) (dict_reader_row h r) =
  resize (length h) "" r ++ replicate (length added) "".
Proof.
  intros Hnd Hfresh. unfold dict_to_list.
  rewrite <- list_fmap_compose, fmap_app. f_equal.
  - apply list_eq. intros i. rewrite list_lookup_fmap.
    destruct (h !! i) as [k|] eqn:Hi; cbn.
    + rewrite (row_get_dict_reader_row _ _ i) by done.
      pose proof (lookup_lt_Some _ _ _ Hi) as Hlt.
      destruct (r !! i) as [x|] eqn:Hr; cbn.
      * pose proof (lookup_lt_Some _ _ _ Hr). by rewrite lookup_resize, Hr.
      * apply lookup_ge_None in Hr. by rewrite lookup_resize_new.
    + symmetry. apply lookup_resize_old. by apply lookup_ge_None.
  - apply list_eq. intros i. rewrite list_lookup_fmap.
    destruct (added !! i) as [k|] eqn:Hi; cbn.
    + rewrite row_get_dict_reader_row_notin
        by (eapply Hfresh, list_elem_of_lookup_2, Hi).
      symmetry. apply lookup_replicate_2. by eapply lookup_lt_Some.
    + symmetry. apply lookup_replicate_None. by apply lookup_ge_None.
Qed.

Lemma dict_to_list_fixed (u : list string) (row : gmap string cell) :
  dict_to_list py_str u (fixed u row) = dict_to_list py_str u row.
Proof.
  unfold fixed. rewrite dict_to_list_foldl_insert.
  unfold dict_to_list. by rewrite <- list_fmap_compose.
Qed.

Lemma fixed_dom (u : list string) (row : gmap string cell) :
  dom (fixed u row) = list_to_set u.
Proof. unfold fixed. by rewrite dom_foldl_insert, dom_empty_L, union_empty_r_L. Qed.

(** ** Running the reconciler *)

Lemma open_file_r path w recs :
  files w !! path = Some recs →
  open_file path ModeR w = Ok (tt, World (files w) (opened w ++ [(path, ModeR)])).
Proof. intros H. unfold open_file. by rewrite H. Qed.

Lemma open_file_a path w recs :
  files w !! path = Some recs →
  open_file path ModeA w = Ok (tt, World (files w) (opened w ++ [(path, ModeA)])).
Proof. intros H. unfold open_file. by rewrite H. Qed.

Lemma csv_reader_ok path w recs :
  files w !! path = Some recs → csv_reader path w = Ok (recs, w).
Proof. intros H. unfold csv_reader. by rewrite H. Qed.

Lemma expand_header_ok path u w recs :
  files w !! path = Some recs →
  expand_header py_str path u w =
  Ok (tt, World (<[path := u :: (dict_to_list py_str u <$> dict_reader recs)]> (files w))
                (opened w ++ [(path, ModeR); (path, ModeW)])).
Proof.
  intros Hf. unfold expand_header.
  rewrite (io_bind_ok _ _ _ _ _ (open_file_r _ _ _ Hf)).
  erewrite io_bind_ok; [|by apply csv_reader_ok].
  rewrite (io_bind_ok _ _ _ _ _ (open_file_w _ _)).
  erewrite io_bind_ok; [|by apply dict_writeheader_ok, lookup_insert_eq].
  cbn [files opened]. rewrite insert_insert_eq.
  rewrite (dict_writerows_ok py_str path u _ _ [u]).
  - cbn [files opened]. rewrite insert_insert_eq, <- app_assoc.
    rewrite <- list_fmap_compose. cbn [app].
    do 5 f_equal. apply list_fmap_ext. intros i d _. apply dict_to_list_fixed.
  - apply Forall_fmap, Forall_true. intros d. cbn. by rewrite fixed_dom.
  - apply lookup_insert_eq.
Qed.

(** The file a call on a file without header line leaves. *)
Lemma ensure_fresh path timestamp symbols (price_map : gmap string V) w :
  no_header_line (files w !! path) →
  ensure_header_and_append_row py_str path timestamp symbols price_map w =
  Ok (tt, World
        (<[path := ["timestamp" :: normalize_symbols symbols;
                    timestamp :: (price_text py_str price_map <$> normalize_symbols symbols)]]>
           (files w))
        (opened w ++ match files w !! path with
                     | None => [(path, ModeW)]
                     | Some _ => [(path, ModeR); (path, ModeW)]
                     end)).
Proof.
  intros Hno. unfold ensure_header_and_append_row.
  unfold mbind at 1, io_bind at 1, path_exists.
  destruct (files w !! path) as [recs|] eqn:Hf.
  - rewrite bool_decide_true by done. cbn [negb].
    rewrite (io_bind_ok _ _ _ _ _ (open_file_r _ _ _ Hf)).
    erewrite io_bind_ok; [|by apply csv_reader_ok].
    destruct recs as [|[|c h] rows]; [| |done]; cbn [head];
      rewrite write_fresh_ok by apply timestamp_notin_normalize;
      cbn [files opened]; by rewrite <- app_assoc.
  - rewrite bool_decide_false by (by intros [? ?]). cbn [negb].
    by rewrite write_fresh_ok by apply timestamp_notin_normalize.
Qed.

(** The file a call on a file with a header line leaves. *)
Lemma ensure_existing path timestamp symbols (price_map : gmap string V) w c h rows :
  files w !! path = Some ((c :: h) :: rows) →
  let old_header := c :: h in
  let u := union_header old_header (normalize_symbols symbols) in
  ensure_header_and_append_row py_str path timestamp symbols price_map w =
  Ok (tt, World
        (<[path := (if decide (u ≠ old_header)
                    then u :: (dict_to_list py_str u <$> dict_reader (old_header :: rows))
                    else old_header :: rows)
                   ++ [timestamp :: (price_text py_str price_map <$> tail u)]]>
           (files w))
        (opened w ++ [(path, ModeR)] ++
           (if decide (u ≠ old_header) then [(path, ModeR); (path, ModeW)] else []) ++
           [(path, ModeA)])).
Proof.
  intros Hf old_header u. unfold ensure_header_and_append_row.
  unfold mbind at 1, io_bind at 1, path_exists.
  rewrite Hf, bool_decide_true by done. cbn [negb].
  rewrite (io_bind_ok _ _ _ _ _ (open_file_r _ _ _ Hf)).
  erewrite io_bind_ok; [|by apply csv_reader_ok].
  cbn [head]. fold old_header. fold u.
  assert (Hrow : dict_to_list py_str u (new_row timestamp (tail u) price_map) =
                 timestamp :: (price_text py_str price_map <$> tail u)).
  { apply (dict_to_list_new_row py_str timestamp (tail u)).
    apply timestamp_notin_union_tail. }
  assert (Hdom : dom (new_row timestamp (tail u) price_map) ⊆ list_to_set u).
  { by rewrite new_row_dom. }
  destruct (decide (u ≠ old_header)) as [Hne|Heq].
  - erewrite io_bind_ok; [|by apply expand_header_ok].
    erewrite io_bind_ok; [|by eapply open_file_a, lookup_insert_eq].
    erewrite dict_writerow_ok; [|done|by apply lookup_insert_eq].
    cbn [files opened]. rewrite insert_insert_eq, Hrow, <- !app_assoc. done.
  - erewrite (io_bind_ok (mret tt)); [|done].
    erewrite io_bind_ok; [|by eapply open_file_a].
    erewrite dict_writerow_ok; [|done|done].
    cbn [files opened]. rewrite Hrow, <- !app_assoc. done.
Qed.

End ReconcilerFacts.

Section ReconcilerProperties.
Context {V : Type} (py_str : V → string).

Abbreviation cell := (cell V).

Lemma price_text_eq (price_map : gmap string V) s :
  price_text py_str price_map s =
  match price_map !! s with Some v => py_str v | None => "" end.
Proof. unfold price_text, price_get. by destruct (price_map !! s). Qed.

Lemma price_text_fmap (price_map : gmap string V) (cols : list string) :
  price_text py_str price_map <$> cols =
  (λ s, match price_map !! s with Some v => py_str v | None => "" end) <$> cols.
Proof. apply list_fmap_ext. intros _ s _. apply price_text_eq. Qed.

(** With well-formed columns the merged header is the old one followed
    by the symbols that are no column yet. *)
Lemma union_header_well_formed cols symbols :
  well_formed_columns cols →
  union_header ("timestamp" :: cols) symbols =
  "timestamp" :: cols ++ filter (λ c, c ∉ cols) symbols.
Proof.
  intros Hwf. unfold union_header, new_cols. by rewrite old_cols_well_formed.
Qed.

Lemma union_header_eq_iff cols symbols :
  well_formed_columns cols →
  union_header ("timestamp" :: cols) symbols = "timestamp" :: cols ↔
  ∀ s, s ∈ symbols → s ∈ cols.
Proof.
  intros Hwf. rewrite union_header_well_formed by done. split.
  - intros [= Heq] s Hs. apply (f_equal length) in Heq.
    rewrite length_app in Heq.
    destruct (filter (λ c, c ∉ cols) symbols) as [|x l] eqn:Hfil; [|cbn in Heq; lia].
    destruct (decide (s ∈ cols)) as [|Hn]; [done|].
    assert (s ∈ filter (λ c, c ∉ cols) symbols) as Hin
      by by apply list_elem_of_filter.
    rewrite Hfil in Hin. by apply elem_of_nil in Hin.
  - intros Hall. f_equal.
    enough (filter (λ c, c ∉ cols) symbols = []) as -> by apply app_nil_r.
    induction symbols as [|s l IH]; [done|].
    rewrite filter_cons_False.
    + apply IH. intros x Hx. apply Hall. by right.
    + intros Hn. apply Hn, Hall. by left.
Qed.

Lemma added_fresh cols symbols c :
  c ∈ filter (λ c, c ∉ cols) (normalize_symbols symbols) →
  c ∉ "timestamp" :: cols.
Proof.
  intros [Hc Hin]%list_elem_of_filter. apply not_elem_of_cons. split; [|done].
  by apply normalize_symbols_canonical in Hin as (_ & _ & _ & ?).
Qed.

Lemma well_formed_columns_NoDup_header cols :
  well_formed_columns cols → NoDup ("timestamp" :: cols).
Proof. intros (? & _ & ?). by constructor. Qed.

Lemma well_formed_columns_app cols symbols :
  well_formed_columns cols →
  well_formed_columns (cols ++ filter (λ c, c ∉ cols) (normalize_symbols symbols)).
Proof.
  intros (Hnd & He & Ht). split_and!.
  - apply NoDup_app. split_and!; [done| |].
    + intros x Hx [Hn _]%list_elem_of_filter. done.
    + apply NoDup_filter, NoDup_normalize_symbols.
  - rewrite elem_of_app. intros [?|[_ Hin]%list_elem_of_filter]; [done|].
    by apply normalize_symbols_canonical in Hin as (_ & _ & ? & _).
  - rewrite elem_of_app. intros [?|[_ Hin]%list_elem_of_filter]; [done|].
    by apply normalize_symbols_canonical in Hin as (_ & _ & _ & ?).
Qed.

Lemma well_formed_columns_normalize symbols :
  well_formed_columns (normalize_symbols symbols).
Proof.
  split_and!.
  - apply NoDup_normalize_symbols.
  - by intros (_ & _ & ? & _)%normalize_symbols_canonical.
  - by intros (_ & _ & _ & ?)%normalize_symbols_canonical.
Qed.

(** The rows [csv.DictReader] yields on a ledger with well-formed
    columns, written back under the header followed by fresh names. *)
Lemma reproject_rows cols added (rows : list record) :
  well_formed_columns cols →
  (∀ k, k ∈ added → k ∉ "timestamp" :: cols) →
  dict_to_list py_str ("timestamp" :: cols ++ added) <$>
    dict_reader (("timestamp" :: cols) :: rows) =
  (λ r, resize (S (length cols)) "" r ++ replicate (length added) "") <$>
    filter (λ r, r ≠ []) rows.
Proof.
  intros Hwf Hfresh. unfold dict_reader. rewrite <- list_fmap_compose.
  apply list_fmap_ext. intros _ r _.
  apply (dict_to_list_dict_reader_row py_str ("timestamp" :: cols) added r);
    auto using well_formed_columns_NoDup_header.
Qed.

Lemma filter_nonblank_id (rows : list record) n :
  Forall (λ r : record, length r = S n) rows → filter (λ r, r ≠ []) rows = rows.
Proof.
  induction 1 as [|r rows Hr _ IH]; [done|].
  rewrite filter_cons_True by (by destruct r). by f_equal.
Qed.

(** The cell of the appended row under a column. *)
Lemma appended_row_lookup timestamp (price_map : gmap string V) cols i c :
  ("timestamp" :: cols) !! i = Some c → c ≠ "timestamp" →
  (timestamp :: (price_text py_str price_map <$> cols)) !! i =
  Some (match price_map !! c with Some v => py_str v | None => "" end).
Proof.
  destruct i as [|i]; [by intros [= <-]|]. intros Hi _.
  change (cols !! i = Some c) in Hi.
  change ((price_text py_str price_map <$> cols) !! i = Some
    match price_map !! c with Some v => py_str v | None => "" end).
  by rewrite list_lookup_fmap, Hi, <- price_text_eq.
Qed.

End ReconcilerProperties.

Section Reconciler.
Context {V : Type} (py_str : V → string).

Abbreviation cell := (cell V).

(** Claim C3.  When the file is absent, or exists but has no header line,
    the call succeeds and leaves in the file exactly two records: the
    header, [timestamp] followed by the normalized symbols, and one row,
    the given timestamp followed, for each symbol, by the text of its
    price when the price map has one and by the empty string otherwise. *)
Theorem reconcile_creates_ledger path timestamp symbols
    (price_map : gmap string V) w :
  no_header_line (files w !! path) →
  ∃ w',
    ensure_header_and_append_row py_str path timestamp symbols price_map w
      = Ok (tt, w') ∧
    files w' !! path =
      Some ["timestamp" :: normalize_symbols symbols;
            timestamp ::
              ((λ s, match price_map !! s with
                     | Some v => py_str v
                     | None => ""
                     end) <$> normalize_symbols symbols)].
Proof.
  intros Hno. eexists. split; [by apply ensure_fresh|].
  cbn [files]. by rewrite lookup_insert_eq, price_text_fmap.
Qed.


(** Claim C1, as amended.  On a file whose header is the timestamp column
    followed by distinct, non-empty column names other than [timestamp],
    a request with at least one normalized symbol that is no column yet
    leaves a file whose header is the old header followed by the new
    symbols in normalized request order; every old row that is not blank
    keeps the cells it has under the old columns (cut, or padded with
    empty strings, to the width of the old header) and has the empty
    string under each new column; one row for the given timestamp
    follows. *)
Theorem reconcile_grows_schema path timestamp symbols
    (price_map : gmap string V) w cols rows :
  files w !! path = Some (("timestamp" :: cols) :: rows) →
  well_formed_columns cols →
  (∃ s, s ∈ normalize_symbols symbols ∧ s ∉ cols) →
  let added := filter (λ c, c ∉ cols) (normalize_symbols symbols) in
  ∃ w',
    ensure_header_and_append_row py_str path timestamp symbols price_map w
      = Ok (tt, w') ∧
    files w' !! path =
      Some (("timestamp" :: cols ++ added) ::
            ((λ r, resize (S (length cols)) "" r ++ replicate (length added) "")
               <$> filter (λ r, r ≠ []) rows) ++
            [timestamp ::
               ((λ s, match price_map !! s with
                      | Some v => py_str v
                      | None => ""
                      end) <$> cols ++ added)]).
Proof.
  intros Hf Hwf (s & Hs & Hsn) added.
  pose proof (ensure_existing py_str path timestamp symbols price_map w _ _ _ Hf)
    as Hrun. cbv zeta in Hrun.
  rewrite union_header_well_formed in Hrun by done. fold added in Hrun.
  assert (Hne : "timestamp" :: cols ++ added ≠ "timestamp" :: cols).
  { intros [= Heq]. apply (f_equal length) in Heq. rewrite length_app in Heq.
    assert (s ∈ added) as Hin by by apply list_elem_of_filter.
    destruct added; [by apply elem_of_nil in Hin|cbn in Heq; lia]. }
  rewrite !decide_True in Hrun by done.
  rewrite (reproject_rows py_str cols added rows Hwf) in Hrun
    by (intros k; apply added_fresh).
  cbn [tail] in Hrun. rewrite price_text_fmap in Hrun.
  eexists. split; [exact Hrun|]. cbn [files]. by rewrite lookup_insert_eq.
Qed.

(** A call on a ledger with well-formed columns: the header it leaves
    and the row it appends. *)
Lemma reconcile_well_formed path timestamp symbols
    (price_map : gmap string V) w cols rows :
  files w !! path = Some (("timestamp" :: cols) :: rows) →
  well_formed_columns cols →
  let added := filter (λ c, c ∉ cols) (normalize_symbols symbols) in
  ∃ w' rows',
    ensure_header_and_append_row py_str path timestamp symbols price_map w
      = Ok (tt, w') ∧
    files w' !! path =
      Some (("timestamp" :: cols ++ added) :: rows' ++
            [timestamp :: (price_text py_str price_map <$> cols ++ added)]).
Proof.
  intros Hf Hwf added.
  pose proof (ensure_existing py_str path timestamp symbols price_map w _ _ _ Hf)
    as Hrun. cbv zeta in Hrun.
  rewrite union_header_well_formed in Hrun by done. fold added in Hrun.
  destruct (decide _) as [Hne|Heq].
  - eexists _, _. split; [exact Hrun|]. cbn [files].
    by rewrite lookup_insert_eq.
  - apply dec_stable in Heq. eexists _, rows. split; [exact Hrun|]. cbn [files].
    rewrite lookup_insert_eq. cbn [tail app]. by rewrite <- Heq at 1.
Qed.


(** Claim C6.  For a requested symbol that the price map lacks, the call
    succeeds whatever the file was, the symbol is a column of the
    resulting header, the appended row has one cell per column, and its
    cell under that symbol is the empty string. *)
Theorem reconcile_missing_price_is_empty path timestamp symbols
    (price_map : gmap string V) w s :
  s ∈ normalize_symbols symbols →
  price_map !! s = None →
  ∃ w' header rows row,
    ensure_header_and_append_row py_str path timestamp symbols price_map w
      = Ok (tt, w') ∧
    files w' !! path = Some (header :: rows ++ [row]) ∧
    length row = length header ∧
    s ∈ header ∧
    ∀ i, header !! i = Some s → row !! i = Some "".
Proof.
  intros Hs Hpm.
  assert (Hts : s ≠ "timestamp")
    by by apply normalize_symbols_canonical in Hs as (_ & _ & _ & ?).
  assert (Hcell : ∀ cols i, ("timestamp" :: cols) !! i = Some s →
    (timestamp :: (price_text py_str price_map <$> cols)) !! i = Some "").
  { intros cols i Hi. rewrite (appended_row_lookup py_str _ _ _ _ _ Hi Hts).
    by rewrite Hpm. }
  destruct (files w !! path) as [[|[|c h] rows]|] eqn:Hf.
  1,2,4: eexists _, _, [], _; (split; [apply ensure_fresh; by rewrite Hf|]);
    cbn [files app]; rewrite lookup_insert_eq; (split; [done|]);
    rewrite length_cons, !length_cons, length_fmap; (split; [done|]);
    (split; [by right|]); apply Hcell.
  pose proof (ensure_existing py_str path timestamp symbols price_map w _ _ _ Hf)
    as Hrun. cbv zeta in Hrun.
  set (u := union_header (c :: h) (normalize_symbols symbols)) in *.
  assert (Hin : s ∈ u).
  { unfold u, union_header. right. apply elem_of_app.
    destruct (decide (s ∈ old_cols (c :: h))); [by left|right].
    by apply elem_of_new_cols. }
  destruct (decide (u ≠ c :: h)) as [Hne|Heq].
  - eexists _, u, _, _. split; [exact Hrun|]. cbn [files].
    rewrite lookup_insert_eq. split; [done|].
    split; [by rewrite length_cons, length_fmap|].
    split; [done|]. apply (Hcell (tail u)).
  - apply dec_stable in Heq.
    eexists _, (c :: h), rows, _. split; [exact Hrun|]. cbn [files].
    rewrite lookup_insert_eq. split; [done|]. rewrite <- Heq.
    split; [by rewrite length_cons, length_fmap|].
    split; [done|]. apply (Hcell (tail u)).
Qed.

(** ** The ledger invariant *)

Lemma produced_well_formed recs : produced py_str recs → well_formed_ledger recs.
Proof.
  induction 1 as [w path timestamp symbols price_map recs Hno Hrun
                 |w path timestamp symbols price_map recs recs' _ IH Hf Hrun];
    unfold content_after in Hrun.
  - rewrite ensure_fresh in Hrun by done. cbn [files] in Hrun.
    rewrite lookup_insert_eq in Hrun. injection Hrun as <-.
    split; [done|]. split; [apply well_formed_columns_normalize|].
    constructor; [|done]. by rewrite length_cons, length_fmap.
  - destruct recs as [|[|c cols] rows]; [done..|].
    destruct IH as (-> & Hwf & Hrows).
    rewrite (ensure_existing py_str _ _ _ _ _ _ _ _ Hf) in Hrun.
    cbn [files] in Hrun. rewrite lookup_insert_eq in Hrun.
    rewrite union_header_well_formed in Hrun by done.
    set (added := filter (λ c, c ∉ cols) (normalize_symbols symbols)) in *.
    destruct (decide _) as [Hne|Heq].
    + rewrite (reproject_rows py_str cols added rows Hwf) in Hrun
        by (intros k; apply added_fresh).
      injection Hrun as <-.
      split; [done|]. split; [by apply well_formed_columns_app|].
      apply Forall_app. split.
      * apply Forall_fmap, Forall_true. intros r. cbn.
        by rewrite length_app, length_resize, length_replicate, length_app.
      * constructor; [|done]. cbn [tail]. by rewrite length_cons, length_fmap.
    + apply dec_stable in Heq. injection Heq as Heq. injection Hrun as <-.
      split; [done|]. split; [done|].
      apply Forall_app. split; [done|]. constructor; [|done].
      cbn [tail]. rewrite length_cons, length_fmap. by rewrite Heq.
Qed.

(** Reading a well-formed ledger back and re-projecting every row onto
    the header gives the rows as they are. *)
Lemma well_formed_round_trip header rows :
  well_formed_ledger (header :: rows) →
  (λ d, dict_to_list py_str header (fixed header d)) <$>
    dict_reader (header :: rows) = rows.
Proof.
  destruct header as [|c cols]; [done|]. intros (-> & Hwf & Hrows).
  rewrite (list_fmap_ext _ (dict_to_list py_str ("timestamp" :: cols)))
    by (intros _ d _; apply dict_to_list_fixed).
  pose proof (reproject_rows py_str cols [] rows Hwf) as Hre.
  rewrite app_nil_r in Hre. rewrite Hre by (intros k []%elem_of_nil).
  rewrite (filter_nonblank_id _ _ Hrows).
  rewrite <- (list_fmap_id rows) at 2. apply Forall_fmap_ext_1.
  eapply Forall_impl; [exact Hrows|]. intros r Hr. cbn.
  by rewrite app_nil_r, resize_all_alt.
Qed.

(** Claim C8.  On a ledger produced by the reconciler, reading the rows
    back through [csv.DictReader] and re-projecting each onto the header
    of the file gives the rows as they are in the file.  A further call
    keeps that: the old header starts the new one, the old rows are still
    there, each a prefix of the row that replaces it, and the round trip
    is again the identity on the new file. *)
Theorem produced_round_trip recs :
  produced py_str recs →
  ∃ header rows,
    recs = header :: rows ∧
    (λ d, dict_to_list py_str header (fixed header d)) <$> dict_reader recs
      = rows ∧
    ∀ path timestamp symbols (price_map : gmap string V) w,
      files w !! path = Some recs →
      ∃ w' header' rows' row,
        ensure_header_and_append_row py_str path timestamp symbols price_map w
          = Ok (tt, w') ∧
        files w' !! path = Some (header' :: rows' ++ [row]) ∧
        header `prefix_of` header' ∧
        length rows' = length rows ∧
        (∀ i r, rows !! i = Some r →
                ∃ r', rows' !! i = Some r' ∧ r `prefix_of` r') ∧
        (λ d, dict_to_list py_str header' (fixed header' d)) <$>
          dict_reader (header' :: rows' ++ [row]) = rows' ++ [row].
Proof.
  intros Hprod. pose proof (produced_well_formed _ Hprod) as Hwf.
  destruct recs as [|header rows]; [done|].
  exists header, rows. split; [done|]. split; [by apply well_formed_round_trip|].
  intros path timestamp symbols price_map w Hf.
  assert (Hprod' : ∀ recs',
    content_after (ensure_header_and_append_row py_str path timestamp symbols price_map)
      w path = Some recs' → well_formed_ledger recs').
  { intros recs' Hrun. eapply produced_well_formed, produced_update; eauto. }
  unfold content_after in Hprod'.
  destruct header as [|c cols]; [done|]. destruct Hwf as (-> & Hwf & Hrows).
  pose proof (ensure_existing py_str path timestamp symbols price_map w _ _ _ Hf)
    as Hrun. cbv zeta in Hrun. rewrite Hrun in Hprod'. cbn [files] in Hprod'.
  rewrite lookup_insert_eq in Hprod'. specialize (Hprod' _ eq_refl).
  rewrite union_header_well_formed in Hrun, Hprod' by done.
  set (added := filter (λ c, c ∉ cols) (normalize_symbols symbols)) in *.
  destruct (decide _) as [Hne|Heq].
  - rewrite (reproject_rows py_str cols added rows Hwf) in Hrun, Hprod'
      by (intros k; apply added_fresh).
    rewrite (filter_nonblank_id _ _ Hrows) in Hrun, Hprod'.
    eexists _, _, _, _. split; [exact Hrun|]. cbn [files].
    rewrite lookup_insert_eq. split; [done|].
    split; [by exists added|]. split; [by rewrite length_fmap|].
    split; [|by apply well_formed_round_trip].
    intros i r Hi. eexists. rewrite list_lookup_fmap, Hi. split; [done|].
    rewrite resize_all_alt
      by (symmetry; eapply (Forall_lookup_1 _ _ _ _ Hrows Hi)).
    by eexists.
  - eexists _, _, _, _. split; [exact Hrun|]. cbn [files].
    rewrite lookup_insert_eq. split; [done|].
    split; [done|]. split; [done|].
    split; [|by apply well_formed_round_trip].
    intros i r Hi. by exists r.
Qed.

End Reconciler.

Section Idempotence.
Context {V : Type} (py_str : V → string).

(** Claim C10.  [normalize_symbols] is idempotent, and the reconciler,
    which normalizes its symbols itself, does the same on normalized and
    on raw symbols. *)
Theorem normalize_symbols_idempotent symbols :
  normalize_symbols (normalize_symbols symbols) = normalize_symbols symbols ∧
  ∀ path timestamp (price_map : gmap string V),
    ensure_header_and_append_row py_str path timestamp
      (normalize_symbols symbols) price_map =
    ensure_header_and_append_row py_str path timestamp symbols price_map.
Proof.
  split; [apply normalize_symbols_idem|]. intros path timestamp price_map.
  unfold ensure_header_and_append_row. by rewrite normalize_symbols_idem.
Qed.

End Idempotence.

(** ** The quote fetcher *)

Lemma py_get_or v key :
  py_get (py_or v (JDict [])) key JNull =
  if object_or_nothing v then Ok (member v key) else Raise AttributeError.
Proof.
  unfold py_or, object_or_nothing.
  destruct v as [|b|z|f|s|l|d]; cbn; try done.
  - by destruct b.
  - by destruct (z =? 0)%Z.
  - by destruct (float_is_zero f).
  - by destruct s.
  - by destruct l.
  - by destruct d.
Qed.

Lemma py_get_member d key dflt v :
  dict_lookup d key = Some v → py_get (JDict d) key dflt = Ok v.
Proof. intros H. cbn. by rewrite H. Qed.

Lemma py_or_member d key v other :
  dict_lookup d key = Some v → py_or (JDict d) other = JDict d.
Proof. by destruct d. Qed.

Section FetcherFacts.
Context (float_of_str : string → option spec_float).

Lemma quote_price_dict d convert sym :
  quote_price float_of_str (JDict d) convert sym =
  let item := member (JDict d) sym in
  if negb (json_truthy item) then Ok None
  else match item with
       | JDict _ =>
           if object_or_nothing (member item "quote")
           then if object_or_nothing (member (member item "quote") convert)
                then price_outcome float_of_str (quoted_price (JDict d) convert sym)
                else Raise AttributeError
           else Raise AttributeError
       | _ => Raise AttributeError
       end.
Proof.
  unfold quote_price, quoted_price. cbn [py_get mbind result_bind member].
  set (item := default JNull (dict_lookup d sym)).
  destruct (json_truthy item) eqn:Ht; cbn [negb]; [|done].
  destruct item as [|b|z|f|s|l|i]; try done.
  cbn [py_get mbind result_bind].
  change (default JNull (dict_lookup i "quote")) with (member (JDict i) "quote").
  rewrite py_get_or. destruct (object_or_nothing (member (JDict i) "quote")); [|done].
  cbn [mbind result_bind].
  set (conv := member (member (JDict i) "quote") convert).
  change (py_get (py_or conv (JDict [])) "price" JNull) with
    (py_get (py_or conv (JDict [])) "price" JNull).
  rewrite py_get_or. destruct (object_or_nothing conv); [|done].
  cbn [mbind result_bind]. unfold price_outcome.
  by destruct (member conv "price").
Qed.

Lemma json_truthy_falsy_member v key :
  json_truthy v = false → member v key = JNull.
Proof. by destruct v as [| | | | | |[|]]. Qed.

Lemma object_or_nothing_truthy v :
  object_or_nothing v → json_truthy v = true → ∃ d, v = JDict d.
Proof.
  unfold object_or_nothing. intros H Ht.
  destruct v; try (by rewrite Ht in H). by eexists.
Qed.

(** On a well-shaped entry the loop body never raises an
    [AttributeError]: it does what the quoted price says. *)
Lemma quote_price_well_shaped d convert sym :
  well_shaped (JDict d) convert sym →
  quote_price float_of_str (JDict d) convert sym =
  price_outcome float_of_str (quoted_price (JDict d) convert sym).
Proof.
  intros (H1 & H2 & H3). rewrite quote_price_dict. cbv zeta.
  destruct (json_truthy (member (JDict d) sym)) eqn:Ht; cbn [negb].
  - destruct (object_or_nothing_truthy _ H1 Ht) as [i Hi].
    unfold quoted_price. rewrite Hi in *.
    destruct (object_or_nothing (member (JDict i) "quote")); [|done].
    by destruct (object_or_nothing (member (member (JDict i) "quote") convert)).
  - unfold quoted_price.
    by rewrite (json_truthy_falsy_member _ "quote" Ht).
Qed.

(** A stored price is the float of the quoted price. *)
Lemma quote_price_Some returned convert sym f :
  quote_price float_of_str returned convert sym = Ok (Some f) →
  py_float float_of_str (quoted_price returned convert sym) = Ok f.
Proof.
  destruct returned as [| | | | | |d]; try done.
  rewrite quote_price_dict. cbv zeta.
  destruct (json_truthy (member (JDict d) sym)); cbn [negb]; [|done].
  destruct (member (JDict d) sym); try done.
  destruct (object_or_nothing _); [|done].
  destruct (object_or_nothing _); [|done].
  unfold price_outcome.
  destruct (quoted_price (JDict d) convert sym) eqn:Hq; try done;
    destruct (py_float _ _) as [f'|[]]; try done; by intros [= ->].
Qed.

(** The loop only adds the symbols it goes through. *)
Lemma collect_prices_lookup returned convert symbols out out' k f :
  collect_prices float_of_str returned convert symbols out = Ok out' →
  out' !! k = Some f →
  out !! k = Some f ∨
  (k ∈ symbols ∧
   py_float float_of_str (quoted_price returned convert k) = Ok f).
Proof.
  revert out. induction symbols as [|sym rest IH]; intros out Hrun Hk.
  { left. by injection Hrun as ->. }
  cbn [collect_prices mbind result_bind] in Hrun.
  destruct (quote_price float_of_str returned convert sym) as [p|e] eqn:Hp; [|done].
  destruct (IH _ Hrun Hk) as [Hout|[Hin Hf]].
  - destruct p as [f'|]; [|by left].
    destruct (decide (sym = k)) as [->|Hne].
    + rewrite lookup_insert_eq in Hout. injection Hout as ->.
      right. split; [by left|]. by apply quote_price_Some.
    + rewrite lookup_insert_ne in Hout by done. by left.
  - right. split; [by right|done].
Qed.

(** The loop on well-shaped entries whose prices are floats or no
    numbers: it returns, and a symbol is stored exactly when the loop
    body yields a price for it. *)
Lemma collect_prices_ok returned convert symbols out :
  Forall (λ sym, ∃ p, quote_price float_of_str returned convert sym = Ok p) symbols →
  ∃ out',
    collect_prices float_of_str returned convert symbols out = Ok out' ∧
    ∀ k, quote_price float_of_str returned convert k = Ok None →
         out' !! k = out !! k.
Proof.
  intros Hall. revert out. induction Hall as [|sym rest [p Hp] _ IH]; intros out.
  { by exists out. }
  cbn [collect_prices mbind result_bind]. rewrite Hp.
  destruct (IH (match p with Some f => <[sym:=f]> out | None => out end))
    as (out' & Hrun & Hskip).
  exists out'. split; [done|]. intros k Hk. rewrite (Hskip k Hk).
  destruct p as [f|]; [|done]. apply lookup_insert_ne. intros ->. congruence.
Qed.

(** The run of [get_prices] up to the loop. *)
Lemma get_prices_response env symbols convert key text data :
  API_KEY env = Some key → key ≠ "" →
  normalize_symbols symbols ≠ [] →
  requests_get env (quotes_request key (normalize_symbols symbols) convert)
    = Response 200 text (Some data) →
  get_prices float_of_str env symbols convert =
  (st ← py_get data "status" (JDict []) ;
   let status := py_or st (JDict []) in
   code ← py_get status "error_code" (JInt 0) ;
   if py_ne_zero code
   then msg ← py_get status "error_message" JNull ;
        Raise (RuntimeError (ApiError code msg))
   else rt ← py_get data "data" (JDict []) ;
        collect_prices float_of_str (py_or rt (JDict [])) convert
          (normalize_symbols symbols) ∅).
Proof.
  intros Hkey Hne Hsyms Hget. unfold quotes_request in Hget.
  unfold get_prices. rewrite Hkey.
  destruct key as [|a key]; [done|].
  destruct (normalize_symbols symbols) as [|s l] eqn:Hn; [done|].
  rewrite Hget. by rewrite decide_False by (by intros ?).
Qed.

(** A call that returns has gone through the loop. *)
Lemma get_prices_Ok env symbols convert out :
  get_prices float_of_str env symbols convert = Ok out →
  ∃ key text data rt,
    API_KEY env = Some key ∧
    requests_get env (quotes_request key (normalize_symbols symbols) convert)
      = Response 200 text (Some data) ∧
    py_get data "data" (JDict []) = Ok rt ∧
    collect_prices float_of_str (py_or rt (JDict [])) convert
      (normalize_symbols symbols) ∅ = Ok out.
Proof.
  unfold get_prices, quotes_request.
  destruct (API_KEY env) as [[|a key]|]; [done| |done].
  destruct (normalize_symbols symbols) as [|s l] eqn:Hn; [done|].
  destruct (requests_get env _) as [|status_code text [data|]] eqn:Hget; [done| |].
  2:{ by destruct (decide _). }
  destruct (decide (status_code ≠ 200%Z)) as [|Hcode%dec_stable]; [done|subst].
  destruct (py_get data "status" (JDict [])) as [st|]; [|done].
  cbn [mbind result_bind].
  destruct (py_get (py_or st (JDict [])) "error_code" (JInt 0)) as [code|]; [|done].
  cbn [mbind result_bind]. destruct (py_ne_zero code).
  { by destruct (py_get _ "error_message" _). }
  destruct (py_get data "data" (JDict [])) as [rt|] eqn:Hrt; [|done].
  cbn [mbind result_bind]. intros Hrun.
  by exists (String a key), text, data, rt.
Qed.

(** The price map covers requested symbols only. *)
Lemma get_prices_requested env symbols convert out sym :
  get_prices float_of_str env symbols convert = Ok out →
  sym ∉ normalize_symbols symbols → out !! sym = None.
Proof.
  intros (key & text & data & rt & _ & _ & _ & Hrun)%get_prices_Ok Hsym.
  destruct (out !! sym) as [f|] eqn:Hout; [|done].
  destruct (collect_prices_lookup _ _ _ _ _ _ _ Hrun Hout) as [Hempty|[Hin _]].
  - by rewrite lookup_empty in Hempty.
  - done.
Qed.

End FetcherFacts.

Section FetcherProperties.
Context (float_of_str : string → option spec_float).

(** Claim C7, as amended.  [get_prices] fails with the error the specification calls
    a [ConfigError] when no API key is set; with a key, with an
    [InputError] when the normalized symbol list is empty; with symbols,
    with a [NetworkError] when the request raises, and with an [ApiError]
    when the status is not 200 or the error code the body reports is not
    0.  On a response that reports the code 0 and whose entries have the
    shape of the HTTP contract, with each quoted price missing, no number,
    or a value [float] accepts, the call returns a price map, and the map
    has no entry for a symbol whose price is missing or no number. *)
Theorem get_prices_failures env symbols convert :
  (API_KEY env = None ∨ API_KEY env = Some "" →
   ∃ e, get_prices float_of_str env symbols convert = Raise e ∧
        classify e = Some ConfigError) ∧
  (∀ key, API_KEY env = Some key → key ≠ "" →
    (normalize_symbols symbols = [] →
     ∃ e, get_prices float_of_str env symbols convert = Raise e ∧
          classify e = Some InputError) ∧
    (normalize_symbols symbols ≠ [] →
     ∀ outcome,
       requests_get env (quotes_request key (normalize_symbols symbols) convert)
         = outcome →
       (outcome = RequestException →
        ∃ e, get_prices float_of_str env symbols convert = Raise e ∧
             classify e = Some NetworkError) ∧
       (∀ status_code text body,
          outcome = Response status_code text body → status_code ≠ 200%Z →
          ∃ e, get_prices float_of_str env symbols convert = Raise e ∧
               classify e = Some ApiErrorClass) ∧
       (∀ text data status code,
          outcome = Response 200 text (Some (JDict data)) →
          dict_lookup data "status" = Some (JDict status) →
          dict_lookup status "error_code" = Some code →
          py_ne_zero code = true →
          ∃ e, get_prices float_of_str env symbols convert = Raise e ∧
               classify e = Some ApiErrorClass) ∧
       (∀ text data status returned,
          outcome = Response 200 text (Some (JDict data)) →
          dict_lookup data "status" = Some (JDict status) →
          dict_lookup status "error_code" = Some (JInt 0) →
          dict_lookup data "data" = Some (JDict returned) →
          Forall (λ sym,
                    well_shaped (JDict returned) convert sym ∧
                    (quoted_price (JDict returned) convert sym = JNull ∨
                     non_numeric float_of_str
                       (quoted_price (JDict returned) convert sym) ∨
                     ∃ f, py_float float_of_str
                            (quoted_price (JDict returned) convert sym) = Ok f))
                 (normalize_symbols symbols) →
          ∃ out,
            get_prices float_of_str env symbols convert = Ok out ∧
            ∀ sym,
              well_shaped (JDict returned) convert sym →
              quoted_price (JDict returned) convert sym = JNull ∨
              non_numeric float_of_str
                (quoted_price (JDict returned) convert sym) →
              out !! sym = None))).
Proof.
  split.
  { intros [Hk|Hk]; unfold get_prices; rewrite Hk; by eexists. }
  intros key Hkey Hne. split.
  { intros Hn. unfold get_prices. rewrite Hkey, Hn.
    destruct key; [done|]. by eexists. }
  intros Hsyms outcome Hget.
  split_and!.
  - intros ->. unfold quotes_request in Hget. unfold get_prices.
    rewrite Hkey. destruct key; [done|].
    destruct (normalize_symbols symbols); [done|]. rewrite Hget. by eexists.
  - intros status_code text body -> Hcode. unfold quotes_request in Hget.
    unfold get_prices. rewrite Hkey. destruct key; [done|].
    destruct (normalize_symbols symbols); [done|]. rewrite Hget.
    rewrite decide_True by done. by eexists.
  - intros text data status code -> Hst Hcode Hnz.
    rewrite (get_prices_response _ _ _ _ _ _ _ Hkey Hne Hsyms Hget).
    rewrite (py_get_member _ _ _ _ Hst). cbn [mbind result_bind].
    rewrite (py_or_member _ _ _ _ Hcode), (py_get_member _ _ _ _ Hcode).
    cbn [mbind result_bind]. rewrite Hnz. by eexists.
  - intros text data status returned -> Hst Hcode Hdata Hall.
    rewrite (get_prices_response _ _ _ _ _ _ _ Hkey Hne Hsyms Hget).
    rewrite (py_get_member _ _ _ _ Hst). cbn [mbind result_bind].
    rewrite (py_or_member _ _ _ _ Hcode), (py_get_member _ _ _ _ Hcode).
    cbn [mbind result_bind py_ne_zero Z.eqb negb].
    rewrite (py_get_member _ _ _ _ Hdata). cbn [mbind result_bind].
    assert (Hret : py_or (JDict returned) (JDict []) = JDict returned)
      by by destruct returned.
    rewrite Hret.
    assert (Hskip : ∀ sym, well_shaped (JDict returned) convert sym →
      quoted_price (JDict returned) convert sym = JNull ∨
      non_numeric float_of_str (quoted_price (JDict returned) convert sym) →
      quote_price float_of_str (JDict returned) convert sym = Ok None).
    { intros sym Hshape Hq. rewrite quote_price_well_shaped by done.
      destruct Hq as [-> | Hq]; [done|]. unfold price_outcome.
      destruct (quoted_price _ _ _) as [| | | |s| |]; try done.
      cbn in *. by rewrite Hq. }
    destruct (collect_prices_ok float_of_str (JDict returned) convert
                (normalize_symbols symbols) ∅) as (out & Hrun & Hout).
    { eapply Forall_impl; [exact Hall|]. cbv beta.
      intros sym (Hshape & [Hq|[Hq|[f Hq]]]).
      - exists None. apply Hskip; auto.
      - exists None. apply Hskip; auto.
      - exists (Some f). rewrite quote_price_well_shaped by done.
        unfold price_outcome. rewrite Hq.
        destruct (quoted_price _ _ _); try done. }
    exists out. split; [done|]. intros sym Hshape Hq.
    by rewrite (Hout sym (Hskip sym Hshape Hq)).
Qed.

(** Claim C9, as amended.  When [get_prices] returns a price map, the
    API answered the request with status 200 and a body with a [data]
    member, every key of the map is one of the normalized requested
    symbols, and its value is [float] of the price the response quotes
    for that symbol.  Nothing makes the value finite. *)
Theorem get_prices_keys_and_values env symbols convert out :
  get_prices float_of_str env symbols convert = Ok out →
  ∃ key text data rt,
    API_KEY env = Some key ∧
    requests_get env (quotes_request key (normalize_symbols symbols) convert)
      = Response 200 text (Some data) ∧
    py_get data "data" (JDict []) = Ok rt ∧
    ∀ sym f, out !! sym = Some f →
      sym ∈ normalize_symbols symbols ∧
      py_float float_of_str
        (quoted_price (py_or rt (JDict [])) convert sym) = Ok f.
Proof.
  intros (key & text & data & rt & Hkey & Hget & Hrt & Hrun)%get_prices_Ok.
  exists key, text, data, rt. split_and!; [done..|].
  intros sym f Hsym.
  destruct (collect_prices_lookup _ _ _ _ _ _ _ _ Hrun Hsym) as [Hempty|]; [|done].
  by rewrite lookup_empty in Hempty.
Qed.

End FetcherProperties.

(** ** The fetch followed by the reconciliation *)

Section Pipeline.
Context (float_of_str : string → option spec_float).
Context (py_str : spec_float → string).

(** The two calls of [main], the fetch and then the reconciliation with
    the symbols of the fetch: the price map has nothing for a symbol the
    request omits, so the appended row has the empty string under every
    column of an omitted symbol. *)
Lemma reconcile_after_fetch env symbols convert price_map
    path timestamp w cols rows :
  get_prices float_of_str env symbols convert = Ok price_map →
  files w !! path = Some (("timestamp" :: cols) :: rows) →
  well_formed_columns cols →
  ∃ w' header' rows' row,
    ensure_header_and_append_row py_str path timestamp symbols price_map w
      = Ok (tt, w') ∧
    files w' !! path = Some (header' :: rows' ++ [row]) ∧
    ("timestamp" :: cols) `prefix_of` header' ∧
    ∀ i c, cols !! i = Some c → c ∉ normalize_symbols symbols →
           row !! S i = Some "".
Proof.
  intros Hfetch Hf Hwf.
  destruct (reconcile_well_formed py_str path timestamp symbols price_map
              w cols rows Hf Hwf) as (w' & rows' & Hrun & Hfile).
  eexists w', _, rows', _. split; [exact Hrun|]. split; [exact Hfile|].
  split; [by eexists|]. intros i c Hi Hc.
  assert (Hts : c ≠ "timestamp").
  { intros ->. destruct Hwf as (_ & _ & Hts). apply Hts.
    by eapply list_elem_of_lookup_2. }
  rewrite (appended_row_lookup py_str timestamp price_map _ (S i) c); [|..|done].
  - by rewrite (get_prices_requested _ _ _ _ _ _ Hfetch Hc).
  - by apply (lookup_app_l_Some ("timestamp" :: cols) _ (S i)).
Qed.

End Pipeline.

(** ** The claims on sample data *)

(** The example of the specification for C3: symbols [BTC] and [ETH], a
    price for [BTC] only, no file.  The two records are the lines
    [timestamp,BTC,ETH] and [T1,50000.0,]. *)
Lemma reconcile_creates_ledger_example :
  no_header_line (files no_file !! "prices.csv") ∧
  ∃ w',
    ensure_header_and_append_row id "prices.csv" "T1" ["BTC"; "ETH"] prices_btc
      no_file = Ok (tt, w') ∧
    files w' !! "prices.csv" =
      Some [["timestamp"; "BTC"; "ETH"]; ["T1"; "50000.0"; ""]] ∧
    csv_line <$> [["timestamp"; "BTC"; "ETH"]; ["T1"; "50000.0"; ""]] =
      ["timestamp,BTC,ETH"; "T1,50000.0,"] ∧
    file_text [["timestamp"; "BTC"; "ETH"]; ["T1"; "50000.0"; ""]] =
      "timestamp,BTC,ETH" +:+ line_terminator +:+
      "T1,50000.0," +:+ line_terminator.
Proof.
  split; [exact I|].
  destruct (reconcile_creates_ledger id "prices.csv" "T1" ["BTC"; "ETH"]
              prices_btc no_file I) as (w' & Hrun & Hfile).
  exists w'. split; [exact Hrun|]. split; [|split; reflexivity].
  rewrite Hfile. vm_compute. reflexivity.
Defined.


(** The example of the specification for C1: the header
    [timestamp,BTC,ETH] with one row, and a request that adds [ADA]. *)
Lemma reconcile_grows_schema_example :
  files one_ledger !! "prices.csv" =
    Some (("timestamp" :: ["BTC"; "ETH"]) :: [["T0"; "50000.0"; "3000.0"]]) ∧
  well_formed_columns ["BTC"; "ETH"] ∧
  (∃ s, s ∈ normalize_symbols ["BTC"; "ETH"; "ADA"] ∧ s ∉ ["BTC"; "ETH"]) ∧
  ∃ w',
    ensure_header_and_append_row id "prices.csv" "T1" ["BTC"; "ETH"; "ADA"]
      prices_btc_ada one_ledger = Ok (tt, w') ∧
    files w' !! "prices.csv" =
      Some [["timestamp"; "BTC"; "ETH"; "ADA"];
            ["T0"; "50000.0"; "3000.0"; ""];
            ["T1"; "51000.0"; ""; "0.5"]].
Proof.
  assert (H1 : files one_ledger !! "prices.csv" =
    Some (("timestamp" :: ["BTC"; "ETH"]) :: [["T0"; "50000.0"; "3000.0"]]))
    by (vm_compute; reflexivity).
  assert (H2 : well_formed_columns ["BTC"; "ETH"]).
  { split_and!; apply (bool_decide_unpack _); vm_compute; exact I. }
  assert (H3 : ∃ s, s ∈ normalize_symbols ["BTC"; "ETH"; "ADA"] ∧ s ∉ ["BTC"; "ETH"]).
  { exists "ADA". split; apply (bool_decide_unpack _); vm_compute; exact I. }
  split; [exact H1|]. split; [exact H2|]. split; [exact H3|].
  destruct (reconcile_grows_schema id "prices.csv" "T1" ["BTC"; "ETH"; "ADA"]
              prices_btc_ada one_ledger _ _ H1 H2 H3) as (w' & Hrun & Hfile).
  exists w'. split; [exact Hrun|]. rewrite Hfile. vm_compute. reflexivity.
Defined.

(** C1 as stated fails on a header that starts with the timestamp column
    and names [BTC] twice: the old row [T0,1.0,2.0] comes back as
    [T0,2.0,2.0,], its first price lost. *)
Lemma reconcile_merges_repeated_columns :
  files twice_btc !! "prices.csv" =
    Some [["timestamp"; "BTC"; "BTC"]; ["T0"; "1.0"; "2.0"]] ∧
  normalize_symbols ["ETH"] = ["ETH"] ∧
  content_after
    (ensure_header_and_append_row id "prices.csv" "T1" ["ETH"] prices_btc)
    twice_btc "prices.csv" =
    Some [["timestamp"; "BTC"; "BTC"; "ETH"];
          ["T0"; "2.0"; "2.0"; ""];
          ["T1"; "50000.0"; "50000.0"; ""]].
Proof. split_and!; vm_compute; reflexivity. Qed.



(** C6 for [ETH], requested and without a price. *)
Lemma reconcile_missing_price_is_empty_example :
  "ETH" ∈ normalize_symbols ["BTC"; "ETH"] ∧
  prices_btc !! "ETH" = None ∧
  ∃ w' header rows row,
    ensure_header_and_append_row id "prices.csv" "T1" ["BTC"; "ETH"] prices_btc
      one_ledger = Ok (tt, w') ∧
    files w' !! "prices.csv" = Some (header :: rows ++ [row]) ∧
    length row = length header ∧
    "ETH" ∈ header ∧
    ∀ i, header !! i = Some "ETH" → row !! i = Some "".
Proof.
  assert (H1 : "ETH" ∈ normalize_symbols ["BTC"; "ETH"])
    by (apply (bool_decide_unpack _); vm_compute; exact I).
  assert (H2 : prices_btc !! "ETH" = None) by (vm_compute; reflexivity).
  split; [exact H1|]. split; [exact H2|].
  exact (reconcile_missing_price_is_empty id "prices.csv" "T1" ["BTC"; "ETH"]
           prices_btc one_ledger "ETH" H1 H2).
Defined.

(** C8 on the ledger the reconciler creates in the example of C3. *)
Lemma produced_round_trip_example :
  produced id [["timestamp"; "BTC"; "ETH"]; ["T1"; "50000.0"; ""]] ∧
  ∃ header rows,
    [["timestamp"; "BTC"; "ETH"]; ["T1"; "50000.0"; ""]] = header :: rows ∧
    (λ d, dict_to_list id header (fixed header d)) <$>
      dict_reader [["timestamp"; "BTC"; "ETH"]; ["T1"; "50000.0"; ""]] = rows ∧
    ∀ path timestamp symbols (price_map : gmap string string) w,
      files w !! path = Some [["timestamp"; "BTC"; "ETH"]; ["T1"; "50000.0"; ""]] →
      ∃ w' header' rows' row,
        ensure_header_and_append_row id path timestamp symbols price_map w
          = Ok (tt, w') ∧
        files w' !! path = Some (header' :: rows' ++ [row]) ∧
        header `prefix_of` header' ∧
        length rows' = length rows ∧
        (∀ i r, rows !! i = Some r →
                ∃ r', rows' !! i = Some r' ∧ r `prefix_of` r') ∧
        (λ d, dict_to_list id header' (fixed header' d)) <$>
          dict_reader (header' :: rows' ++ [row]) = rows' ++ [row].
Proof.
  assert (H1 : produced id [["timestamp"; "BTC"; "ETH"]; ["T1"; "50000.0"; ""]]).
  { apply (produced_create id no_file "prices.csv" "T1" ["BTC"; "ETH"] prices_btc).
    - exact I.
    - vm_compute. reflexivity. }
  split; [exact H1|]. exact (produced_round_trip id _ H1).
Defined.

(** C7 on a response that quotes a float for [BTC], a text that is no
    number for [ETH], and nothing for [SOL]. *)
Lemma get_prices_failures_example :
  ∃ out,
    get_prices no_text_price env_partial ["btc"; "eth"; "sol"] "USD" = Ok out ∧
    ∀ sym,
      well_shaped (JDict quotes_partial) "USD" sym →
      quoted_price (JDict quotes_partial) "USD" sym = JNull ∨
      non_numeric no_text_price (quoted_price (JDict quotes_partial) "USD" sym) →
      out !! sym = None.
Proof.
  destruct (get_prices_failures no_text_price env_partial ["btc"; "eth"; "sol"] "USD")
    as [_ H].
  destruct (H "key" eq_refl ltac:(discriminate)) as [_ H'].
  destruct (H' ltac:(vm_compute; discriminate) _ eq_refl) as (_ & _ & _ & H6).
  apply (H6 "ok" body_partial [("error_code", JInt 0)] quotes_partial);
    [reflexivity..|].
  assert (Hn : normalize_symbols ["btc"; "eth"; "sol"] = ["BTC"; "ETH"; "SOL"])
    by (vm_compute; reflexivity).
  rewrite Hn.
  assert (Hshape : ∀ sym, sym ∈ ["BTC"; "ETH"; "SOL"] →
            well_shaped (JDict quotes_partial) "USD" sym).
  { intros sym Hsym. repeat apply elem_of_cons in Hsym as [->|Hsym];
      [by vm_compute..|by apply elem_of_nil in Hsym]. }
  apply Forall_cons. split.
  { split; [apply Hshape; by left|]. right. right. by exists float_50000. }
  apply Forall_cons. split.
  { split; [apply Hshape; right; by left|]. right. by left. }
  apply Forall_cons. split; [|by apply Forall_nil].
  split; [apply Hshape; right; right; by left|]. by left.
Defined.

(** C7 as stated fails on a response that reports the code 0 and gives
    the quote of [BTC] as a text: no price is quoted for [BTC], and the
    call ends with an [AttributeError], which is none of the four
    errors. *)
Lemma get_prices_raises_on_text_quote :
  API_KEY env_text_quote = Some "key" ∧
  normalize_symbols ["BTC"] = ["BTC"] ∧
  requests_get env_text_quote (quotes_request "key" ["BTC"] "USD")
    = Response 200 "ok" (Some (JDict body_text_quote)) ∧
  dict_lookup body_text_quote "status" = Some (JDict [("error_code", JInt 0)]) ∧
  quoted_price (member (JDict body_text_quote) "data") "USD" "BTC" = JNull ∧
  get_prices no_text_price env_text_quote ["BTC"] "USD" = Raise AttributeError ∧
  classify AttributeError = None.
Proof. split_and!; vm_compute; reflexivity. Qed.

(** C9 on the same response: the price map holds [BTC] only. *)
Lemma get_prices_keys_and_values_example :
  get_prices no_text_price env_partial ["btc"; "eth"; "sol"] "USD"
    = Ok {["BTC" := float_50000]} ∧
  ∃ key text data rt,
    API_KEY env_partial = Some key ∧
    requests_get env_partial
      (quotes_request key (normalize_symbols ["btc"; "eth"; "sol"]) "USD")
      = Response 200 text (Some data) ∧
    py_get data "data" (JDict []) = Ok rt ∧
    ∀ sym f, ({["BTC" := float_50000]} : gmap string spec_float) !! sym = Some f →
      sym ∈ normalize_symbols ["btc"; "eth"; "sol"] ∧
      py_float no_text_price
        (quoted_price (py_or rt (JDict [])) "USD" sym) = Ok f.
Proof.
  assert (H1 : get_prices no_text_price env_partial ["btc"; "eth"; "sol"] "USD"
               = Ok {["BTC" := float_50000]}) by (vm_compute; reflexivity).
  split; [exact H1|].
  exact (get_prices_keys_and_values no_text_price env_partial
           ["btc"; "eth"; "sol"] "USD" _ H1).
Defined.

(** C9 as stated fails on a response that quotes an infinite price (the
    JSON number [1e999] reads as one): the price map holds it. *)
Lemma get_prices_stores_infinity :
  get_prices no_text_price env_infinite ["BTC"] "USD"
    = Ok {["BTC" := S754_infinity false]} ∧
  float_is_finite (S754_infinity false) = false.
Proof. split; vm_compute; reflexivity. Qed.

(** An integer beyond the range of a float is a number whose conversion
    raises. *)
Example float_of_int_overflow :
  float_of_int (2 ^ 1024) = Raise OverflowError ∧
  float_of_int 50000 = Ok float_50000.
Proof. split; vm_compute; reflexivity. Qed.

(** A column without a name goes, with the cells under it, when the
    header grows. *)
Example reconcile_drops_unnamed_column :
  content_after
    (ensure_header_and_append_row id "prices.csv" "T1" ["ETH"] prices_btc)
    (World {["prices.csv" := [["timestamp"; "BTC"; ""]; ["T0"; "1.0"; "x"]]]} [])
    "prices.csv" =
    Some [["timestamp"; "BTC"; "ETH"]; ["T0"; "1.0"; ""]; ["T1"; "50000.0"; ""]].
Proof. vm_compute. reflexivity. Qed.

(** An entry that is no object, and a body that is no JSON: neither is a
    missing or non-numeric price, and both end the call with an
    exception of their own. *)
Example get_prices_other_failures :
  quote_price no_text_price (JDict [("BTC", JStr "unknown")]) "USD" "BTC"
    = Raise AttributeError ∧
  get_prices no_text_price
    (Environment (Some "key") (λ _, Response 200 "<html>" None)) ["BTC"] "USD"
    = Raise JSONDecodeError.
Proof. split; vm_compute; reflexivity. Qed.
